(** * Power-transitions dashboard: score calculation and N/A propagation

    A shallow embedding of the scoring code of the dashboard and the
    properties its specification states about it. The code is that of
    [src/constants/index.jsx] (SCORE_MAPPINGS), of the score calculation
    module printed after [docs/CHANGELOG_BACKEND.md]
    ([src/utils/scoreCalculations.js]) and of the functions quoted in the
    change logs: [isNA] and [generateExpertAnalysis]
    ([docs/CHANGELOG_FRONTEND.md]), [calculateCapacitySizeScore] and the
    queries of [backend/models/expertAnalysis.js] (the backend change log).

    JavaScript values are modelled as they are at run time: numbers are
    IEEE 754 binary64 values (Rocq's primitive [float]), strings are
    sequences of code units (restricted to the range 0..255), objects used
    as records are finite maps from property names to values. *)

From Stdlib Require Import ZArith NArith String Ascii List Bool Lia.
From Stdlib Require Import Floats.PrimFloat Floats.SpecFloat Floats.FloatOps
  Floats.FloatAxioms.
From stdpp Require Import gmap strings.

Set Warnings "-inexact-float".
Local Open Scope string_scope.

(* ===================================================================== *)
(** ** JavaScript strings *)
(* ===================================================================== *)

Module JsString.

(** WhiteSpace and LineTerminator code units below 256: TAB, LF, VT, FF,
    CR, SP and NBSP. *)
Definition isWhiteSpace (c : ascii) : bool :=
  let n := N_of_ascii c in
  ((9 <=? n) && (n <=? 13) || (n =? 32) || (n =? 160))%N.

Fixpoint trimStart (s : string) : string :=
  match s with
  | EmptyString => EmptyString
  | String c s' => if isWhiteSpace c then trimStart s' else s
  end.

Fixpoint trimEnd (s : string) : string :=
  match s with
  | EmptyString => EmptyString
  | String c s' =>
      match trimEnd s' with
      | EmptyString => if isWhiteSpace c then EmptyString else String c EmptyString
      | t => String c t
      end
  end.

(** [String.prototype.trim] *)
Definition trim (s : string) : string := trimEnd (trimStart s).

(** Lower-casing of one code unit: A-Z and the Latin-1 capitals. *)
Definition lowerChar (c : ascii) : ascii :=
  let n := N_of_ascii c in
  if ((65 <=? n) && (n <=? 90)
      || (192 <=? n) && (n <=? 222) && negb (n =? 215))%N
  then ascii_of_N (n + 32) else c.

(** [String.prototype.toLowerCase] *)
Fixpoint toLowerCase (s : string) : string :=
  match s with
  | EmptyString => EmptyString
  | String c s' => String (lowerChar c) (toLowerCase s')
  end.

Fixpoint startsWith (s p : string) {struct p} : bool :=
  match p, s with
  | EmptyString, _ => true
  | String _ _, EmptyString => false
  | String a p', String b s' => if Ascii.eqb a b then startsWith s' p' else false
  end.

(** [String.prototype.includes] *)
Fixpoint includes (s sub : string) : bool :=
  if startsWith s sub then true
  else match s with
       | EmptyString => false
       | String _ s' => includes s' sub
       end.

Fixpoint repeat (c : ascii) (n : nat) : string :=
  match n with
  | O => EmptyString
  | S n' => String c (repeat c n')
  end.

Fixpoint take (n : nat) (s : string) : string :=
  match n, s with
  | S n', String c s' => String c (take n' s')
  | _, _ => EmptyString
  end.

Fixpoint drop (n : nat) (s : string) : string :=
  match n, s with
  | S n', String _ s' => drop n' s'
  | _, _ => s
  end.

End JsString.

(* ===================================================================== *)
(** ** JavaScript numbers *)
(* ===================================================================== *)

Module JsNumber.

Abbreviation number := float.

Definition isNaN (x : number) : bool := PrimFloat.is_nan x.

(** The binary64 value nearest to the rational [num / den] (ties to even),
    with the given sign. *)
Definition roundRatio (neg : bool) (num den : positive) : spec_float :=
  SFdiv prec emax (S754_finite neg num 0) (S754_finite false den 0).

(** The binary64 value nearest to [m * 10 ^ e10]. *)
Definition roundDecimal (neg : bool) (m : N) (e10 : Z) : spec_float :=
  match m with
  | N0 => S754_zero neg
  | Npos p =>
      match e10 with
      | Zneg k => roundRatio neg p (Pos.pow 10 k)
      | Z0 => roundRatio neg p 1
      | Zpos k => roundRatio neg (p * Pos.pow 10 k) 1
      end
  end.

(** *** Decimal digits *)

Definition isDigit (c : ascii) : bool :=
  let n := N_of_ascii c in ((48 <=? n) && (n <=? 57))%N.

Definition digitVal (c : ascii) : N := (N_of_ascii c - 48)%N.

Definition digitChar (d : N) : ascii := ascii_of_N (48 + d).

(** Reads the longest prefix of decimal digits: its value from the
    accumulator [acc], the number of digits read and the rest. *)
Fixpoint readDigits (s : string) (acc : N) (cnt : nat) : N * nat * string :=
  match s with
  | String c s' =>
      if isDigit c then readDigits s' (10 * acc + digitVal c)%N (S cnt)
      else (acc, cnt, s)
  | EmptyString => (acc, cnt, s)
  end.

(** Decimal digits of a natural number, most significant first. *)
Fixpoint digitsFuel (fuel : nat) (n : N) (acc : string) : string :=
  match fuel with
  | O => acc
  | S fuel' =>
      let acc' := String (digitChar (n mod 10)) acc in
      if (n / 10 =? 0)%N then acc' else digitsFuel fuel' (n / 10)%N acc'
  end.

Definition digitsOfN (n : N) : string :=
  digitsFuel (S (N.to_nat (N.log2 n))) n EmptyString.

(** *** [parseFloat] on a string: the longest prefix that is a
    StrDecimalLiteral, after leading white space. *)

Definition readSign (s : string) : bool * string :=
  match s with
  | String "-" s' => (true, s')
  | String "+" s' => (false, s')
  | _ => (false, s)
  end.

(** The exponent part [e[+-]digits], when a complete one is present. *)
Definition readExponent (s : string) : Z :=
  match s with
  | String c s' =>
      if (Ascii.eqb c "e" || Ascii.eqb c "E")%bool then
        let '(neg, s'') := readSign s' in
        let '(v, cnt, _) := readDigits s'' 0%N O in
        match cnt with
        | O => 0%Z
        | S _ => if neg then (- Z.of_N v)%Z else Z.of_N v
        end
      else 0%Z
  | EmptyString => 0%Z
  end.

Definition parseFloatString (input : string) : number :=
  let '(neg, s) := readSign (JsString.trimStart input) in
  if JsString.startsWith s "Infinity" then
    (if neg then neg_infinity else infinity)
  else
    let '(ip, icnt, rest) := readDigits s 0%N O in
    let '(m, fcnt, rest') :=
      match rest with
      | String "." r => let '(m, fcnt, r') := readDigits r ip O in
                        match icnt, fcnt with
                        | O, O => (ip, O, rest)
                        | _, _ => (m, fcnt, r')
                        end
      | _ => (ip, O, rest)
      end in
    match icnt, fcnt with
    | O, O => nan
    | _, _ => SF2Prim (roundDecimal neg m (readExponent rest' - Z.of_nat fcnt))
    end.

(** *** [parseInt] on a string, with no radix argument. *)

Definition hexVal (c : ascii) : option N :=
  let n := N_of_ascii c in
  if ((48 <=? n) && (n <=? 57))%N then Some (n - 48)%N
  else if ((97 <=? n) && (n <=? 102))%N then Some (n - 87)%N
  else if ((65 <=? n) && (n <=? 70))%N then Some (n - 55)%N
  else None.

Fixpoint readHex (s : string) (acc : N) (cnt : nat) : N * nat :=
  match s with
  | String c s' =>
      match hexVal c with
      | Some d => readHex s' (16 * acc + d)%N (S cnt)
      | None => (acc, cnt)
      end
  | EmptyString => (acc, cnt)
  end.

Definition parseIntString (input : string) : number :=
  let '(neg, s) := readSign (JsString.trimStart input) in
  let '(v, cnt) :=
    if (JsString.startsWith s "0x" || JsString.startsWith s "0X")%bool
    then readHex (JsString.drop 2 s) 0%N O
    else let '(v, cnt, _) := readDigits s 0%N O in (v, cnt) in
  match cnt with
  | O => nan
  | S _ => SF2Prim (roundDecimal neg v 0)
  end.

(** *** [Number::toString] (radix 10) *)

(** The least [n] at or above the start [n] with [num / den < 10 ^ n]. *)
Fixpoint decimalExponentUp (fuel : nat) (num den : positive) (n : Z) : Z :=
  match fuel with
  | O => n
  | S fuel' =>
      if (Z.pos num * 10 ^ Z.max 0 (- n) <? Z.pos den * 10 ^ Z.max 0 n)%Z then n
      else decimalExponentUp fuel' num den (n + 1)%Z
  end.

(** The [n] with [10 ^ (n - 1) <= num / den < 10 ^ n]; the search starts
    from an under-estimate taken from the binary lengths. *)
Definition decimalExponent (num den : positive) : Z :=
  let bits := (Z.log2 (Z.pos num) - Z.log2 (Z.pos den) - 1)%Z in
  decimalExponentUp 8 num den (bits * 30103 / 100000 - 1)%Z.

(** [floor (num / den / 10 ^ e)] *)
Definition scaledFloor (num den : positive) (e : Z) : Z :=
  (Z.pos num * 10 ^ Z.max 0 (- e) / (Z.pos den * 10 ^ Z.max 0 e))%Z.

(** Whether [s * 10 ^ e] reads back as the binary64 value [x]. *)
Definition readsBack (x : spec_float) (s : Z) (e : Z) : bool :=
  SFeqb (roundDecimal false (Z.to_N s) e) x.

(** The distance of [s * 10 ^ e] to [num / den], scaled by a positive factor
    that is the same for every [s]: used to compare two candidates. *)
Definition distance (num den : positive) (s e : Z) : Z :=
  Z.abs (s * 10 ^ Z.max 0 e * Z.pos den - Z.pos num * 10 ^ Z.max 0 (- e))%Z.

(** The digits [s], their number [k] and the exponent [n] of
    Number::toString for a positive finite [x = num / den]: [k] as small
    as possible such that [s * 10 ^ (n - k)] reads back as [x], [s] the
    closest to [x] among them (the even one on a tie). *)
Fixpoint shortest (fuel : nat) (x : spec_float) (num den : positive)
    (n : Z) (k : Z) : Z * Z * Z :=
  let lo := scaledFloor num den (n - k) in
  let hi := (lo + 1)%Z in
  let okLo := readsBack x lo (n - k) in
  let okHi := readsBack x hi (n - k) in
  let pick :=
    if (okLo && okHi)%bool then
      match (distance num den lo (n - k) ?= distance num den hi (n - k))%Z with
      | Lt => Some lo
      | Gt => Some hi
      | Eq => Some (if Z.even lo then lo else hi)
      end
    else if okLo then Some lo
    else if okHi then Some hi
    else None in
  match pick, fuel with
  | Some s, _ =>
      if (s =? 10 ^ k)%Z then (10 ^ (k - 1), k, n + 1)%Z else (s, k, n)
  | None, O => (lo, k, n)
  | None, S fuel' => shortest fuel' x num den n (k + 1)%Z
  end.

(** The text of Number::toString from the digits, [k] and [n]. *)
Definition formatDigits (digits : string) (k n : Z) : string :=
  if ((k <=? n) && (n <=? 21))%Z then
    digits ++ JsString.repeat "0" (Z.to_nat (n - k))
  else if ((0 <? n) && (n <=? 21))%Z then
    JsString.take (Z.to_nat n) digits ++ "." ++ JsString.drop (Z.to_nat n) digits
  else if ((-6 <? n) && (n <=? 0))%Z then
    "0." ++ JsString.repeat "0" (Z.to_nat (- n)) ++ digits
  else
    let e := (n - 1)%Z in
    let mant :=
      if (k =? 1)%Z then digits
      else JsString.take 1 digits ++ "." ++ JsString.drop 1 digits in
    mant ++ "e" ++ (if (e <? 0)%Z then "-" else "+") ++ digitsOfN (Z.to_N (Z.abs e)).

(** The exact value of a finite binary64 [m * 2 ^ e] as a ratio. *)
Definition ratioOf (m : positive) (e : Z) : positive * positive :=
  match e with
  | Zneg k => (m, Pos.pow 2 k)
  | Z0 => (m, 1%positive)
  | Zpos k => ((m * Pos.pow 2 k)%positive, 1%positive)
  end.

Definition toString (x : number) : string :=
  match Prim2SF x with
  | S754_nan => "NaN"
  | S754_zero _ => "0"
  | S754_infinity neg => if neg then "-Infinity" else "Infinity"
  | S754_finite neg m e =>
      let '(num, den) := ratioOf m e in
      let n := decimalExponent num den in
      let '(s, k, n') := shortest 17 (S754_finite false m e) num den n 1 in
      (if neg then "-" else "") ++ formatDigits (digitsOfN (Z.to_N s)) k n'
  end.

(** *** [Number.prototype.toFixed] *)

(** [round (num / den * 10 ^ f)], the larger integer on a tie. *)
Definition roundHalfUp (num den : positive) (f : nat) : N :=
  Z.to_N ((2 * Z.pos num * 10 ^ Z.of_nat f + Z.pos den) / (2 * Z.pos den)).

Definition toFixed (x : number) (f : nat) : string :=
  match Prim2SF x with
  | S754_finite neg m e =>
      if (1e21 <=? abs x)%float then toString x
      else
        let '(num, den) := ratioOf m e in
        let ds := digitsOfN (roundHalfUp num den f) in
        let ds := JsString.repeat "0" (S f - String.length ds) ++ ds in
        let ip := String.length ds - f in
        (if neg then "-" else "")
          ++ JsString.take ip ds
          ++ (match f with O => "" | S _ => "." ++ JsString.drop ip ds end)
  | S754_zero _ =>
      "0" ++ (match f with O => "" | S _ => "." ++ JsString.repeat "0" f end)
  | _ => toString x
  end.

(** *** [Math] *)

(** [Math.round]: the nearest integer, the larger one on a tie. *)
Definition Math_round (x : number) : number :=
  match Prim2SF x with
  | S754_finite neg m (Zneg k) =>
      let den := Z.pos (Pos.pow 2 k) in
      let v := if neg then Z.neg m else Z.pos m in
      let r := ((2 * v + den) / (2 * den))%Z in
      SF2Prim (binary_normalize prec emax r 0 neg)
  | _ => x
  end.

(** [Math.max] and [Math.min] of two numbers. *)
Definition Math_max (a b : number) : number :=
  if (isNaN a || isNaN b)%bool then nan
  else if (a <? b)%float then b
  else if (b <? a)%float then a
  else if get_sign a then b else a.

Definition Math_min (a b : number) : number :=
  if (isNaN a || isNaN b)%bool then nan
  else if (a <? b)%float then a
  else if (b <? a)%float then b
  else if get_sign a then a else b.

End JsNumber.

(* ===================================================================== *)
(** ** JavaScript values and objects *)
(* ===================================================================== *)

Import JsNumber.

(** The primitive values a spreadsheet or form field can hold. *)
Inductive JsValue : Type :=
  | JUndefined
  | JNull
  | JBool (b : bool)
  | JNum (x : number)
  | JStr (s : string).

Module Js.

(** [v === null], [v === undefined], [v === ''], [v === 0] *)
Definition isNull (v : JsValue) : bool :=
  match v with JNull => true | _ => false end.

Definition isUndefined (v : JsValue) : bool :=
  match v with JUndefined => true | _ => false end.

Definition isEmptyString (v : JsValue) : bool :=
  match v with JStr EmptyString => true | _ => false end.

Definition isZero (v : JsValue) : bool :=
  match v with JNum x => (x =? 0)%float | _ => false end.

(** [String(v)] *)
Definition ToString (v : JsValue) : string :=
  match v with
  | JUndefined => "undefined"
  | JNull => "null"
  | JBool true => "true"
  | JBool false => "false"
  | JNum x => JsNumber.toString x
  | JStr s => s
  end.

(** Truthiness. *)
Definition ToBoolean (v : JsValue) : bool :=
  match v with
  | JUndefined | JNull => false
  | JBool b => b
  | JNum x => negb (isNaN x || (x =? 0)%float)
  | JStr s => negb (String.eqb s "")
  end.

(** [a || b] *)
Definition or (a b : JsValue) : JsValue := if ToBoolean a then a else b.

(** [parseFloat(v)] and [parseInt(v)]: the argument is converted to a
    string first. *)
Definition parseFloat (v : JsValue) : number := parseFloatString (ToString v).
Definition parseInt (v : JsValue) : number := parseIntString (ToString v).

(** An object used as a record of named fields; reading a property that
    is absent gives [undefined]. *)
Abbreviation Object := (gmap string JsValue).

Definition prop (o : Object) (key : string) : JsValue :=
  default JUndefined (o !! key).

(** [array.includes(s)] on an array of strings. *)
Definition arrayIncludes (a : list string) (s : string) : bool :=
  existsb (String.eqb s) a.

End Js.

Import Js.

(* ===================================================================== *)
(** ** src/utils/naValues.js *)
(* ===================================================================== *)

Module NaValues.

(** [isNA(value)]: whether a value is N/A. *)
Definition isNA (value : JsValue) : bool :=
  if (isNull value || isUndefined value)%bool then true
  else match value with
       | JStr s =>
           let trimmed := JsString.trim s in
           (String.eqb trimmed "" || String.eqb trimmed "#N/A"
            || String.eqb trimmed "N/A")%bool
       | _ => false
       end.

(** [formatScoreDisplay(value, decimals)]; the callers that leave
    [decimals] out get 2. *)
Definition formatScoreDisplay (value : JsValue) (decimals : nat) : string :=
  if (isNull value || isUndefined value)%bool then "N/A"
  else JsNumber.toFixed (parseFloat value) decimals.

End NaValues.

(* ===================================================================== *)
(** ** src/constants/index.jsx: SCORE_MAPPINGS *)
(* ===================================================================== *)

Module SCORE_MAPPINGS.

(** The test every mapping applies to the trimmed text of its argument:
    [s === '' || s === '#N/A' || s === 'N/A' || s === '#VALUE!']. *)
Definition isSentinel (s : string) : bool :=
  (String.eqb s "" || String.eqb s "#N/A" || String.eqb s "N/A"
   || String.eqb s "#VALUE!")%bool.

(** [value === null || value === undefined || value === ''] *)
Definition isAbsent (value : JsValue) : bool :=
  (isNull value || isUndefined value || isEmptyString value)%bool.

Definition cod (year : JsValue) : JsValue :=
  if isAbsent year then JNull else
  let yearStr := JsString.trim (ToString year) in
  if isSentinel yearStr then JNull else
  let codYear := parseInt year in
  if isNaN codYear then JNull else
  if (codYear <? 2000)%float then JNum 3 else
  if (codYear <=? 2005)%float then JNum 2 else
  JNum 1.

Definition capacityFactor (cf : JsValue) : JsValue :=
  if isAbsent cf then JNull else
  let cfStr := JsString.trim (ToString cf) in
  if isSentinel cfStr then JNull else
  let cfNum := parseFloat cf in
  if isNaN cfNum then JNull else
  if (cfNum <? 0.1)%float then JNum 3 else
  if (cfNum <=? 0.25)%float then JNum 2 else
  JNum 1.

Definition premiumMarkets : list string := ["PJM"; "NYISO"; "ISO-NE"].
Definition goodMarkets : list string := ["MISO North"; "SERC"].
Definition neutralMarkets : list string := ["SPP"; "MISO South"].
Definition poorMarkets : list string := ["ERCOT"; "WECC"; "CAISO"].

Definition market (iso : JsValue) : JsValue :=
  if isAbsent iso then JNull else
  let isoStr := JsString.trim (ToString iso) in
  if isSentinel isoStr then JNull else
  if arrayIncludes premiumMarkets isoStr then JNum 3 else
  if arrayIncludes goodMarkets isoStr then JNum 2 else
  if arrayIncludes neutralMarkets isoStr then JNum 1 else
  if arrayIncludes poorMarkets isoStr then JNum 0 else
  JNum 1.

Definition transactability (type : JsValue) : JsValue :=
  if isAbsent type then JNull else
  match type with
  | JStr s =>
      let typeStr := JsString.trim s in
      if isSentinel typeStr then JNull else
      let lowerType := JsString.toLowerCase typeStr in
      if (JsString.includes lowerType "bilateral"
          && JsString.includes lowerType "developed")%bool then JNum 3 else
      if (JsString.includes lowerType "bilateral"
          || JsString.includes lowerType "process"
             && JsString.includes lowerType "less than 10")%bool then JNum 2 else
      if (JsString.includes lowerType "competitive"
          && JsString.includes lowerType "more than 10")%bool then JNum 1 else
      JNum 2
  | _ =>
      let num := parseFloat type in
      if negb (isNaN num) then JNum (Math_min (Math_max (Math_round num) 0) 3)
      else JNull
  end.

(** EXCEPTION: thermalOptimization defaults to 0 if missing (not null). *)
Definition thermalOptimization (value : JsValue) : JsValue :=
  let text :=
    match value with
    | JStr s =>
        if ToBoolean value then
          let lower := JsString.toLowerCase s in
          if JsString.includes lower "readily apparent" then Some (JNum 2)
          else if JsString.includes lower "no identifiable" then Some (JNum 1)
          else None
        else None
    | _ => None
    end in
  match text with
  | Some r => r
  | None =>
      if isZero value then JNum 0 else
      if isAbsent value then JNum 0 else
      let valueStr := JsString.trim (ToString value) in
      if isSentinel valueStr then JNum 0 else
      let parsed := parseInt value in
      if (negb (isNaN parsed) && (0 <=? parsed)%float && (parsed <=? 2)%float)%bool
      then JNum parsed
      else JNum 0
  end.

(** [environmental] and [redevMarket] have the same body. *)
Definition integerRating (value : JsValue) : JsValue :=
  if isAbsent value then JNull else
  if isZero value then JNum 0 else
  let valueStr := JsString.trim (ToString value) in
  if isSentinel valueStr then JNull else
  let score := parseInt value in
  if isNaN score then JNull else
  JNum (Math_min (Math_max score 0) 3).

Definition environmental (value : JsValue) : JsValue := integerRating value.
Definition redevMarket (value : JsValue) : JsValue := integerRating value.

(** [infra] and [ix] have the same body. *)
Definition continuousRating (value : JsValue) : JsValue :=
  if isAbsent value then JNull else
  if isZero value then JNum 0 else
  let valueStr := JsString.trim (ToString value) in
  if isSentinel valueStr then JNull else
  let score := parseFloat value in
  if isNaN score then JNull else
  if (2.5 <=? score)%float then JNum 3 else
  if (1.5 <=? score)%float then JNum 2 else
  if (0.5 <=? score)%float then JNum 1 else
  JNum 0.

Definition infra (value : JsValue) : JsValue := continuousRating value.
Definition ix (value : JsValue) : JsValue := continuousRating value.

End SCORE_MAPPINGS.

(* ===================================================================== *)
(** ** src/utils/scoreCalculations.js *)
(* ===================================================================== *)

Module ScoreCalculations.

(** The helper of [calculateThermalScore]: the first source that is
    neither undefined, null nor [''] and parses to a number; the default
    otherwise. *)
Fixpoint getScore (sources : list JsValue) (defaultVal : number) : number :=
  match sources with
  | [] => defaultVal
  | src :: rest =>
      if (negb (isUndefined src) && negb (isNull src)
          && negb (isEmptyString src))%bool
      then let num := parseFloat src in
           if negb (isNaN num) then num else getScore rest defaultVal
      else getScore rest defaultVal
  end.

Definition calculateThermalScore (data : Object) : JsValue :=
  let cod := getScore [prop data "plant_cod"; prop data "Plant  COD";
                       prop data "Plant COD"] 0 in
  let markets := getScore [prop data "markets"; prop data "Markets"] 0 in
  let transact := getScore [prop data "transactability_scores";
                            prop data "Transactability Scores"] 0 in
  let thermalOptRaw := getScore [prop data "thermal_optimization";
                                 prop data "Thermal Optimization"] 1 in
  let thermalOpt := Math_max 1 (if isNaN thermalOptRaw then 1 else thermalOptRaw) in
  let environmental := getScore [prop data "environmental_score";
                                 prop data "Envionmental Score";
                                 prop data "Environmental Score"] 2 in
  let score := ((cod * 0.20) +
                (markets * 0.30) +
                (transact * 0.30) +
                (thermalOpt * 0.05) +
                (environmental * 0.15))%float in
  JNum (if isNaN score then 0 else score).

(** The helper of [calculateRedevelopmentScore]. *)
Definition getScore2 (primary secondary : JsValue) (defaultVal : number) : number :=
  let fromSecondary :=
    if (negb (isUndefined secondary) && negb (isNull secondary)
        && negb (isEmptyString secondary))%bool
    then let num := parseFloat secondary in
         if negb (isNaN num) then num else defaultVal
    else defaultVal in
  if (negb (isUndefined primary) && negb (isNull primary)
      && negb (isEmptyString primary))%bool
  then let num := parseFloat primary in
       if negb (isNaN num) then num else fromSecondary
  else fromSecondary.

Definition calculateRedevelopmentScore (data : Object) : JsValue :=
  let market := getScore2 (prop data "market_score") (prop data "Market Score") 2 in
  let infra := getScore2 (prop data "infra") (prop data "Infra") 2 in
  let ix := getScore2 (prop data "ix") (prop data "IX") 2 in
  let coLocate :=
    JsString.trim (JsString.toLowerCase (ToString
      (or (or (prop data "co_locate_repower") (prop data "Co-Locate/Repower"))
          (JStr "")))) in
  let multiplier := if String.eqb coLocate "repower" then 0.75%float else 1%float in
  if ((market =? 0)%float || (infra =? 0)%float || (ix =? 0)%float)%bool then JNum 0
  else
    let score := (((market * 0.40) + (infra * 0.30) + (ix * 0.30)) * multiplier)%float in
    JNum (if isNaN score then 0 else score).

(** [x || 0] on a number. *)
Definition orZero (x : number) : number :=
  if ToBoolean (JNum x) then x else 0%float.

Definition calculateOverallScore (thermal redev : JsValue) : JsValue :=
  let thermalVal := orZero (parseFloat thermal) in
  let redevVal := orZero (parseFloat redev) in
  JNum (thermalVal + redevVal)%float.

(** The rating of [calculateAllScores], from the overall score. *)
Definition ratingOf (overall : number) : string :=
  if (4.5 <=? overall)%float then "Strong"
  else if (3.0 <=? overall)%float then "Moderate"
  else "Weak".

Record Scores : Type := {
  thermal_score : JsValue;
  redevelopment_score : JsValue;
  overall_score : JsValue;
  overall_rating : string
}.

(** The number held by a value that is known to be one. *)
Definition numberOf (v : JsValue) : number :=
  match v with JNum x => x | _ => nan end.

Definition calculateAllScores (data : Object) : Scores :=
  let thermal := numberOf (calculateThermalScore data) in
  let redev := numberOf (calculateRedevelopmentScore data) in
  let overall := numberOf (calculateOverallScore (JNum thermal) (JNum redev)) in
  let rating := ratingOf overall in
  {| thermal_score := JNum (parseFloatString (toFixed thermal 2));
     redevelopment_score := JNum (parseFloatString (toFixed redev 2));
     overall_score := JNum (parseFloatString (toFixed overall 2));
     overall_rating := rating |}.

End ScoreCalculations.

(* ===================================================================== *)
(** ** src/utils/scoring.js *)
(* ===================================================================== *)

Module Scoring.

Import ScoreCalculations.

(** [score !== null ? score.toFixed(1) : "0.0"]; calling [toFixed] on a
    value that is not a number raises a TypeError ([None]). *)
Definition scoreText (score : JsValue) : option string :=
  match score with
  | JNull => Some "0.0"
  | JNum x => Some (toFixed x 1)
  | _ => None
  end.

(** The rating of [generateExpertAnalysis], from the text of the overall
    score. *)
Definition ratingOfText (overallScore : string) : string :=
  let overallNumeric := parseFloatString overallScore in
  if (4.5 <=? overallNumeric)%float then "Strong"
  else if (3.0 <=? overallNumeric)%float then "Moderate"
  else "Weak".

Record ExpertAnalysis : Type := {
  overallScore : string;
  thermalScore : string;
  redevelopmentScore : string;
  overallRating : string
}.

(** The part of [generateExpertAnalysis] after the scores are computed. *)
Definition analyseScores (scores : Scores) : option ExpertAnalysis :=
  match scoreText (overall_score scores),
        scoreText (thermal_score scores),
        scoreText (redevelopment_score scores) with
  | Some o, Some t, Some r =>
      Some {| overallScore := o; thermalScore := t; redevelopmentScore := r;
              overallRating := ratingOfText o |}
  | _, _, _ => None
  end.

Definition generateExpertAnalysis (projectData : Object) : option ExpertAnalysis :=
  analyseScores (calculateAllScores projectData).

End Scoring.

(* ===================================================================== *)
(** ** backend/utils/scoreCalculations.js *)
(* ===================================================================== *)

Module BackendScores.

(** [calculateCapacitySizeScore(mw, isPortfolio = false)] *)
Definition calculateCapacitySizeScore (mw : JsValue) (isPortfolio : JsValue) : JsValue :=
  let isPortfolio := if isUndefined isPortfolio then JBool false else isPortfolio in
  if (isNull mw || isUndefined mw || isEmptyString mw)%bool then JNull else
  let mwNum := parseFloat mw in
  if isNaN mwNum then JNull else
  let threshold := if ToBoolean isPortfolio then 150%float else 50%float in
  if (threshold <? mwNum)%float then JNum 1 else JNum 0.

(** [calculateFuelScore(fuel)] *)
Definition calculateFuelScore (fuel : JsValue) : JsValue :=
  if (isNull fuel || isUndefined fuel || isEmptyString fuel)%bool then JNull else
  let fuelStr := JsString.toLowerCase (JsString.trim (ToString fuel)) in
  if String.eqb fuelStr "" then JNull else
  if (JsString.includes fuelStr "gas" || JsString.includes fuelStr "oil")%bool
  then JNum 1 else
  if (JsString.includes fuelStr "solar" || JsString.includes fuelStr "wind"
      || JsString.includes fuelStr "coal" || JsString.includes fuelStr "bess")%bool
  then JNum 0 else
  JNum 0.

End BackendScores.

(* ===================================================================== *)
(** ** backend/models/expertAnalysis.js: stored data *)
(* ===================================================================== *)

(** The outcome of an operation that can fail with a reported error. *)
Inductive Result (A : Type) : Type :=
  | Ok (a : A)
  | Failed (message : string).

Arguments Ok {A} a.
Arguments Failed {A} message.

Module Transmission.

(** A row of the table [transmission_interconnection]: the project it
    belongs to and the POI voltage entry. *)
Record Row : Type := { project_id : string; entry : Object }.

Abbreviation Table := (list Row).

(** [DELETE FROM transmission_interconnection WHERE project_id = $1] *)
Definition deleteByProject (projectId : string) (t : Table) : Table :=
  List.filter (fun r => negb (String.eqb (project_id r) projectId)) t.

(** The insertion of each entry, done when [transmissionData.length > 0]. *)
Definition insertEntries (projectId : string) (transmissionData : list Object)
    (t : Table) : Table :=
  match transmissionData with
  | [] => t
  | _ => t ++ List.map (fun e => {| project_id := projectId; entry := e |})
                       transmissionData
  end.

(** The entries stored for a project, in table order. *)
Definition entriesOf (projectId : string) (t : Table) : list Object :=
  List.map entry (List.filter (fun r => String.eqb (project_id r) projectId) t).

(** Modelled from the spec: the function of backend/models/expertAnalysis.js
    that saves the POI voltage entries of a project is missing; only its
    length check, its delete query and its insert loop are quoted in the
    change log. The spec (4.4, 6, 7) makes the cardinality check a
    validation error that persists nothing, and the replacement one logical
    delete-then-insert operation. *)
Definition replaceChildEntries (projectId : string) (transmissionData : list Object)
    (t : Table) : Result unit * Table :=
  if (5 <? List.length transmissionData)%nat
  then (Failed "Maximum of 5 POI voltage entries allowed", t)
  else (Ok tt, insertEntries projectId transmissionData (deleteByProject projectId t)).

End Transmission.

Module Lifecycle.

Import ScoreCalculations.

(** The current state persisted for one project. *)
Record ScoreRecord : Type := {
  components : Object;
  scores : Scores;
  edited_by : string;
  edited_at : N
}.

(** A row of [expert_analysis_history]. *)
Record ScoreHistoryEntry : Type := {
  history_project : N;
  snapshot : ScoreRecord;
  changes_summary : string
}.

Record Database : Type := {
  projects : gmap N ScoreRecord;
  history : list ScoreHistoryEntry
}.

Inductive StorageOp : Type :=
  | WriteCurrent (projectId : N) (record : ScoreRecord)
  | AppendHistory (h : ScoreHistoryEntry).

Definition applyOp (op : StorageOp) (db : Database) : Database :=
  match op with
  | WriteCurrent projectId record =>
      {| projects := <[projectId := record]> (projects db); history := history db |}
  | AppendHistory h =>
      {| projects := projects db; history := history db ++ [h] |}
  end.

(** Runs the operations on a working copy. [fault = Some k] is a storage
    failure injected when [k] operations have been applied ([Some 0]:
    before the first one; [Some 1]: between the first and the second; a
    [k] equal to the number of operations: at the commit). *)
Fixpoint execute (ops : list StorageOp) (fault : option nat) (work : Database)
    : option Database :=
  match fault with
  | Some O => None
  | _ =>
      match ops with
      | [] => Some work
      | op :: rest => execute rest (Nat.pred <$> fault) (applyOp op work)
      end
  end.

(** Modelled from the spec: the transaction of the save function of
    backend/models/expertAnalysis.js is missing (only the score
    recalculation and the history INSERT are quoted). Following 4.4 step 3
    and section 5, the operations are committed together, and a failure
    rolls back to the state before the first of them. *)
Definition transaction (ops : list StorageOp) (fault : option nat) (db : Database)
    : Result unit * Database :=
  match execute ops fault db with
  | Some db' => (Ok tt, db')
  | None => (Failed "storage error", db)
  end.

(** Modelled from the spec: [saveOverride] (4.4, 6): the scores are
    recomputed from the raw component values, then the current record is
    overwritten and a history entry with the same values is appended, in
    one transaction. *)
Definition saveOverride (projectId : N) (rawFields : Object) (coLocateFlag : JsValue)
    (editor : string) (timestamp : N) (changeSummary : string)
    (fault : option nat) (db : Database) : Result ScoreRecord * Database :=
  let data := <["co_locate_repower" := coLocateFlag]> rawFields in
  let record := {| components := data; scores := calculateAllScores data;
                   edited_by := editor; edited_at := timestamp |} in
  let entry := {| history_project := projectId; snapshot := record;
                  changes_summary := changeSummary |} in
  match transaction [WriteCurrent projectId record; AppendHistory entry] fault db with
  | (Ok _, db') => (Ok record, db')
  | (Failed msg, db') => (Failed msg, db')
  end.

End Lifecycle.

(* ===================================================================== *)
(** ** Inputs and notions used in the statements *)
(* ===================================================================== *)

Section Statements.

Import JsString NaValues SCORE_MAPPINGS ScoreCalculations Scoring BackendScores.
Import Transmission Lifecycle.
Local Open Scope list_scope.
Local Open Scope float_scope.

(** The threshold in MW: 150 for a portfolio, 50 for an individual
    project. *)
Definition capacityThreshold (isPortfolio : bool) : number :=
  if isPortfolio then 150 else 50.

(** The values a normalized sub-score takes when it is present. *)
Definition subScores : list number := [0; 1; 2; 3].

(** The project data that holds the five sub-scores under their
    canonical keys. *)
Definition thermalInputs (cod markets transactability thermalOpt environmental : JsValue)
    : Object :=
  {[ "plant_cod" := cod; "markets" := markets;
     "transactability_scores" := transactability;
     "thermal_optimization" := thermalOpt;
     "environmental_score" := environmental ]}.

(** COD is missing; the other four sub-scores are present. *)
Definition missingCodInputs : Object :=
  thermalInputs JNull (JNum 3) (JNum 1) (JNum 0) (JNum 2).

Definition redevInputs (market infra ix flag : JsValue) : Object :=
  {[ "market_score" := market; "infra" := infra; "ix" := ix;
     "co_locate_repower" := flag ]}.

(** The market sub-score is missing; infra is 2 and ix is 3. *)
Definition missingMarketInputs : Object :=
  redevInputs JNull (JNum 2) (JNum 3) (JStr "").


(** The code unit [c] occurs in [s]. *)
Fixpoint occurs (c : ascii) (s : string) : Prop :=
  match s with
  | EmptyString => False
  | String a s' => a = c \/ occurs c s'
  end.

Inductive Missingness : Type := MISSING | PRESENT.

(** The classifier as the specification words it (4.1): undefined and null
    are missing; a string is missing when its trimmed text is empty or one
    of the sentinel tokens; a number, 0 included, is present. *)
Definition classify (value : JsValue) : Missingness :=
  match value with
  | JUndefined | JNull => MISSING
  | JStr s => if isSentinel (trim s) then MISSING else PRESENT
  | JNum _ | JBool _ => PRESENT
  end.

(** The text rules of [thermalOptimization] apply to the value. *)
Definition keywordText (value : JsValue) : bool :=
  match value with
  | JStr s => (includes (toLowerCase s) "readily apparent"
               || includes (toLowerCase s) "no identifiable")%bool
  | _ => false
  end.

(** A text with "bilateral", "competitive" and "more than 10" but
    neither "developed" nor "less than 10": the two readings of the second
    rule give different scores on it. *)
Definition precedenceText : string := "Bilateral, then competitive with more than 10 bidders".

(** A stored table: two entries of project 7 and one of project 8. *)
Definition sampleTable : Table :=
  [ {| project_id := "7"; entry := {[ "poi_voltage" := JStr "138 kV" ]} |};
    {| project_id := "8"; entry := {[ "poi_voltage" := JStr "69 kV" ]} |};
    {| project_id := "7"; entry := {[ "poi_voltage" := JStr "345 kV" ]} |} ].

Definition sampleEntry (voltage : string) : Object :=
  {[ "poi_voltage" := JStr voltage ]}.

(** The record that a save computes from its arguments. *)
Definition savedRecord (rawFields : Object) (coLocateFlag : JsValue)
    (editor : string) (timestamp : N) : ScoreRecord :=
  let data := <["co_locate_repower" := coLocateFlag]> rawFields in
  {| components := data; scores := calculateAllScores data;
     edited_by := editor; edited_at := timestamp |}.

(** The operations applied in order. *)
Definition applyAll (ops : list StorageOp) (db : Database) : Database :=
  fold_left (fun work op => applyOp op work) ops db.

End Statements.

From Stdlib Require Import Floats.FloatLemmas.

(* ===================================================================== *)
(** ** backend/models/projectModel.js *)
(* ===================================================================== *)

Module ProjectModel.

(** What [maTierMap[key] || null] evaluates to: the id stored under an own
    key, null, or the member of [Object.prototype] that the key names (a
    function or an object, which is truthy). *)
Inductive TierResult : Type :=
  | TierId (id : N)
  | TierNull
  | TierInherited (name : string).

(** The properties an object literal inherits from [Object.prototype]. *)
Definition objectPrototypeKeys : list string :=
  ["constructor"; "__defineGetter__"; "__defineSetter__"; "hasOwnProperty";
   "__lookupGetter__"; "__lookupSetter__"; "isPrototypeOf";
   "propertyIsEnumerable"; "toString"; "valueOf"; "__proto__";
   "toLocaleString"].

Fixpoint ownProperty (map : list (string * N)) (key : string) : option N :=
  match map with
  | [] => None
  | (k, id) :: rest => if String.eqb k key then Some id else ownProperty rest key
  end.

(** [map[key] || null], the ids of the map being positive. *)
Definition lookupTier (map : list (string * N)) (key : string) : TierResult :=
  match ownProperty map key with
  | Some id => TierId id
  | None => if arrayIncludes objectPrototypeKeys key then TierInherited key
            else TierNull
  end.

(** [handleMaTier], before the fix. *)
Definition maTierMapOld : list (string * N) :=
  [("Owned", 1%N); ("Exclusivity", 2%N); ("second round", 3%N);
   ("first round", 4%N); ("pipeline", 5%N); ("passed", 6%N)].

Definition handleMaTierOld (maTierValue : JsValue) : TierResult :=
  if negb (ToBoolean maTierValue) then TierNull
  else lookupTier maTierMapOld (ToString maTierValue).

(** [handleMaTier], with the value lower-cased and trimmed first. *)
Definition maTierMap : list (string * N) :=
  [("owned", 1%N); ("exclusivity", 2%N); ("second round", 3%N);
   ("first round", 4%N); ("pipeline", 5%N); ("passed", 6%N)].

Definition handleMaTier (maTierValue : JsValue) : TierResult :=
  if negb (ToBoolean maTierValue) then TierNull
  else
    let normalizedValue :=
      JsString.trim (JsString.toLowerCase (ToString maTierValue)) in
    lookupTier maTierMap normalizedValue.

End ProjectModel.

(* ===================================================================== *)
(** ** src/components/Modals/ExpertAnalysisModal.jsx and the check of the
       back end *)
(* ===================================================================== *)

Module PoiVoltage.

(** What a click on the add button does: the next list of entries, the
    alert shown and whether [preventDefault] was called. *)
Record AddOutcome : Type := {
  nextData : list Object;
  alerted : option string;
  defaultPrevented : bool
}.

(** [addNewTransmissionEntry]: [localTransmissionData] is the list the
    callback has captured, on which the limit is checked; [prev] is the
    list the state update receives. *)
Definition addNewTransmissionEntry (isEditing : bool)
    (localTransmissionData prev : list Object) (newEntry : Object) : AddOutcome :=
  if negb isEditing
  then {| nextData := prev; alerted := None; defaultPrevented := false |}
  else if (5 <=? List.length localTransmissionData)%nat
  then {| nextData := prev;
          alerted := Some "Maximum of 5 POI voltage entries allowed.";
          defaultPrevented := true |}
  else {| nextData := (prev ++ [newEntry])%list; alerted := None;
          defaultPrevented := true |}.

(** The clicks of a session, the callback capturing the current list at
    each of them. *)
Definition addAll (isEditing : bool) (data : list Object) (entries : list Object)
    : list Object :=
  fold_left (fun current e => nextData (addNewTransmissionEntry isEditing current current e))
            entries data.

(** The check of the back end:
    [if (transmissionData.length > 5) throw new Error(...)]. *)
Definition enforceMaxEntries (transmissionData : list Object) : Result unit :=
  if (5 <? List.length transmissionData)%nat
  then Failed "Maximum of 5 POI voltage entries allowed"
  else Ok tt.

End PoiVoltage.

(* ===================================================================== *)
(** ** The order of binary64 numbers, by keys *)
(* ===================================================================== *)

Section OrderKeys.

Local Open Scope Z_scope.

(** A key of three integers for every binary64 value but NaN, such that
    the order of the values is the lexicographic order of their keys: the
    first component tells infinities, negative and positive numbers and
    zeros apart, then come the exponent and the mantissa. *)
Definition SFkey (f : spec_float) : option (Z * Z * Z) :=
  match f with
  | S754_nan => None
  | S754_infinity true => Some (-2, 0, 0)
  | S754_infinity false => Some (2, 0, 0)
  | S754_zero _ => Some (0, 0, 0)
  | S754_finite true m e => Some (-1, - e, Z.neg m)
  | S754_finite false m e => Some (1, e, Z.pos m)
  end.

Definition keyLtb (k1 k2 : Z * Z * Z) : bool :=
  let '(a1, b1, c1) := k1 in
  let '(a2, b2, c2) := k2 in
  (a1 <? a2) || ((a1 =? a2) && ((b1 <? b2) || ((b1 =? b2) && (c1 <? c2)))).

Definition keyLeb (k1 k2 : Z * Z * Z) : bool :=
  let '(a1, b1, c1) := k1 in
  let '(a2, b2, c2) := k2 in
  (a1 <? a2) || ((a1 =? a2) && ((b1 <? b2) || ((b1 =? b2) && (c1 <=? c2)))).

Definition keyEqb (k1 k2 : Z * Z * Z) : bool :=
  let '(a1, b1, c1) := k1 in
  let '(a2, b2, c2) := k2 in
  (a1 =? a2) && (b1 =? b2) && (c1 =? c2).

(** The key of a number. *)
Definition numberKey (x : number) : option (Z * Z * Z) := SFkey (Prim2SF x).

End OrderKeys.

(* ===================================================================== *)
(** ** Notions used in the properties of the mappings *)
(* ===================================================================== *)

Section MappingNotions.

Import JsString SCORE_MAPPINGS.
Local Open Scope float_scope.

(** The value passes the two tests for missing values that the mappings
    share: it is not null, undefined or [''], and its trimmed text is not
    empty or a sentinel. *)
Definition passesMissingTests (value : JsValue) : bool :=
  (negb (isAbsent value) && negb (isSentinel (trim (ToString value))))%bool.

(** The result is the number [x], up to the sign of zero. *)
Definition isNumber (r : JsValue) (x : number) : Prop :=
  exists y, r = JNum y /\ (y =? x) = true.

(** The result is a number between [lo] and [hi]. *)
Definition numberWithin (lo hi : number) (r : JsValue) : Prop :=
  exists x, r = JNum x /\ (lo <=? x) = true /\ (x <=? hi) = true.

(** The result is null or a number between [lo] and [hi]. *)
Definition nullOrWithin (lo hi : number) (r : JsValue) : Prop :=
  r = JNull \/ numberWithin lo hi r.

End MappingNotions.

(* ===================================================================== *)
(** ** Notions used in the properties of the composite scores *)
(* ===================================================================== *)

Section ScoreNotions.

Import ScoreCalculations.
Local Open Scope float_scope.

(** [getScore] uses the source: it is not undefined, null or [''], and it
    reads as a number. *)
Definition usableSource (src : JsValue) : bool :=
  (negb (isUndefined src) && negb (isNull src) && negb (isEmptyString src)
   && negb (isNaN (parseFloat src)))%bool.

(** The five components of the thermal score under the column labels of
    the spreadsheet. *)
Definition legacyThermalInputs (cod markets transactability thermalOpt environmental : JsValue)
    : Object :=
  {[ "Plant COD" := cod; "Markets" := markets;
     "Transactability Scores" := transactability;
     "Thermal Optimization" := thermalOpt;
     "Environmental Score" := environmental ]}.

(** The components of the redevelopment score under the column labels of
    the spreadsheet. *)
Definition legacyRedevInputs (market infra ix flag : JsValue) : Object :=
  {[ "Market Score" := market; "Infra" := infra; "IX" := ix;
     "Co-Locate/Repower" := flag ]}.

(** The keys [calculateThermalScore] reads, each with a label it reads
    after it. *)
Definition thermalLabels : list (string * string) :=
  [ ("plant_cod", "Plant  COD"); ("plant_cod", "Plant COD");
    ("Plant  COD", "Plant COD"); ("markets", "Markets");
    ("transactability_scores", "Transactability Scores");
    ("thermal_optimization", "Thermal Optimization");
    ("environmental_score", "Envionmental Score");
    ("environmental_score", "Environmental Score");
    ("Envionmental Score", "Environmental Score") ].

End ScoreNotions.

(* ===================================================================== *)
(** ** Missing values for the mappings that need a number *)
(* ===================================================================== *)

Section NumericMissingness.

Import JsString.
Local Open Scope float_scope.

(** [Number.isFinite(x)] *)
Definition isFinite (x : number) : bool :=
  match Prim2SF x with
  | S754_nan | S754_infinity _ => false
  | _ => true
  end.

(** [x] is [Infinity] or [-Infinity]. *)
Definition isInfinite (x : number) : bool :=
  match Prim2SF x with
  | S754_infinity _ => true
  | _ => false
  end.

(** The classifier for a mapping that needs a number, as the specification
    words it (4.1): on top of the rules of [classify], a string that is no
    sentinel is present when it parses to a finite number and missing
    otherwise; [parse] is the reading of the mapping, [parseInt] or
    [parseFloat]. *)
Definition classifyNumeric (parse : JsValue -> number) (value : JsValue)
    : Missingness :=
  match value with
  | JStr _ =>
      match classify value with
      | MISSING => MISSING
      | PRESENT => if isFinite (parse value) then PRESENT else MISSING
      end
  | _ => classify value
  end.

(** The value is an explicit integer between 0 and 2, as the specification
    words it (4.2): the number 0, 1 or 2, or a text that is one of these
    numerals, white space around it apart. *)
Definition explicitInteger (value : JsValue) : bool :=
  match value with
  | JNum x => ((x =? 0) || (x =? 1) || (x =? 2))%bool
  | JStr s => (String.eqb (trim s) "0" || String.eqb (trim s) "1"
               || String.eqb (trim s) "2")%bool
  | _ => false
  end.

End NumericMissingness.

(* ===================================================================== *)
(** ** Notions used in the properties of the text of a number *)
(* ===================================================================== *)

Section NumberText.

(** The characters of a decimal numeral in scientific notation. *)
Definition numericChar (c : ascii) : bool :=
  (isDigit c || Ascii.eqb c "." || Ascii.eqb c "e" || Ascii.eqb c "+"
   || Ascii.eqb c "-")%bool.

Fixpoint allChars (p : ascii -> bool) (s : string) : bool :=
  match s with
  | EmptyString => true
  | String c s' => (p c && allChars p s')%bool
  end.

(** The text starts with a decimal digit and goes on with characters of a
    numeral. *)
Definition decimalText (s : string) : bool :=
  match s with
  | EmptyString => false
  | String c s' => (isDigit c && allChars numericChar s')%bool
  end.

(** The text is not empty and has decimal digits only. *)
Definition digitText (s : string) : bool :=
  match s with
  | EmptyString => false
  | String _ _ => allChars isDigit s
  end.

End NumberText.

(* ===================================================================== *)
(** * Properties *)
(* ===================================================================== *)

(** Splits a conjunction into its parts, and nothing else. *)
Ltac split_conj := repeat match goal with |- _ /\ _ => split end.

(** ** The order of binary64 numbers *)

Section FloatOrder.

Local Open Scope float_scope.

Lemma SFcompare_antisym (f1 f2 : spec_float) :
  SFcompare f2 f1 = option_map CompOpp (SFcompare f1 f2).
Proof.
  destruct f1 as [s1|s1| |s1 m1 e1], f2 as [s2|s2| |s2 m2 e2]; simpl;
    try reflexivity;
    try (destruct s1; reflexivity); try (destruct s2; reflexivity);
    try (destruct s1, s2; reflexivity).
  destruct s1, s2; simpl; try reflexivity;
    rewrite (Z.compare_antisym e1 e2); destruct (e1 ?= e2)%Z; simpl;
    try reflexivity;
    change (Pos.compare_cont Eq m2 m1) with (Pos.compare m2 m1);
    change (Pos.compare_cont Eq m1 m2) with (Pos.compare m1 m2);
    rewrite (Pos.compare_antisym m1 m2); reflexivity.
Qed.

Lemma SFcompare_none (f1 f2 : spec_float) :
  SFcompare f1 f2 = None -> f1 = S754_nan \/ f2 = S754_nan.
Proof.
  destruct f1 as [s1|s1| |s1 m1 e1], f2 as [s2|s2| |s2 m2 e2]; simpl;
    intros H; try discriminate H; auto.
Qed.

Lemma isNaN_false (x : number) : isNaN x = false -> Prim2SF x <> S754_nan.
Proof.
  unfold isNaN, is_nan. rewrite FloatAxioms.eqb_spec. intros H E. rewrite E in H.
  discriminate H.
Qed.

Lemma ltb_leb (x y : number) : (x <? y) = true -> (x <=? y) = true.
Proof.
  rewrite FloatAxioms.ltb_spec, FloatAxioms.leb_spec. unfold SFltb, SFleb.
  destruct (SFcompare (Prim2SF x) (Prim2SF y)) as [[]|]; auto.
Qed.


Lemma leb_not_ltb (x y : number) : (x <=? y) = true -> (y <? x) = false.
Proof.
  rewrite FloatAxioms.ltb_spec, FloatAxioms.leb_spec. unfold SFltb, SFleb.
  rewrite (SFcompare_antisym (Prim2SF x) (Prim2SF y)).
  destruct (SFcompare (Prim2SF x) (Prim2SF y)) as [[]|]; simpl; auto;
    discriminate.
Qed.

Lemma not_ltb_leb (x y : number) :
  isNaN x = false -> isNaN y = false -> (x <? y) = false -> (y <=? x) = true.
Proof.
  intros Hx Hy. apply isNaN_false in Hx. apply isNaN_false in Hy.
  rewrite FloatAxioms.ltb_spec, FloatAxioms.leb_spec. unfold SFltb, SFleb.
  rewrite (SFcompare_antisym (Prim2SF x) (Prim2SF y)).
  destruct (SFcompare (Prim2SF x) (Prim2SF y)) as [[]|] eqn:E; simpl; auto.
  destruct (SFcompare_none _ _ E); contradiction.
Qed.

End FloatOrder.

(* ===================================================================== *)
(** ** The built-in functions on examples *)
(* ===================================================================== *)

Section BuiltIns.

Local Open Scope float_scope.

Example parseFloat_examples :
  parseFloatString "0.1" = 0.1 /\ parseFloatString "  -2.5e3 MW" = -2500
  /\ parseFloatString ".5" = 0.5 /\ parseFloatString "5." = 5
  /\ parseFloatString "1e" = 1 /\ parseFloatString "Infinity" = infinity
  /\ isNaN (parseFloatString "") = true /\ isNaN (parseFloatString "N/A") = true
  /\ isNaN (parseFloatString ".") = true
  /\ parseFloatString "9007199254740993" = 9007199254740992.
Proof. split_conj; vm_compute; reflexivity. Qed.

Example parseInt_examples :
  parseIntString "2005" = 2005 /\ parseIntString " 12px" = 12
  /\ parseIntString "-7.9" = -7 /\ parseIntString "0x1F" = 31
  /\ parseIntString "1e3" = 1
  /\ isNaN (parseIntString "") = true /\ isNaN (parseIntString "abc") = true.
Proof. split_conj; vm_compute; reflexivity. Qed.

Example toString_examples :
  JsNumber.toString 0.1 = "0.1" /\ JsNumber.toString (0.1 + 0.2) = "0.30000000000000004"
  /\ JsNumber.toString 2000 = "2000" /\ JsNumber.toString (-1.25) = "-1.25"
  /\ JsNumber.toString 1e21 = "1e+21"
  /\ JsNumber.toString 123456789012345680000 = "123456789012345680000"
  /\ JsNumber.toString 0.000001 = "0.000001" /\ JsNumber.toString 5e-7 = "5e-7"
  /\ JsNumber.toString (-0) = "0" /\ JsNumber.toString nan = "NaN"
  /\ JsNumber.toString neg_infinity = "-Infinity".
Proof. split_conj; vm_compute; reflexivity. Qed.

Example toFixed_examples :
  toFixed 3.975 2 = "3.98" /\ toFixed 2.025 2 = "2.02" /\ toFixed 1.005 2 = "1.00"
  /\ toFixed 3.975 1 = "4.0" /\ toFixed 0 1 = "0.0" /\ toFixed (-1.25) 1 = "-1.3"
  /\ toFixed 10 0 = "10".
Proof. split_conj; vm_compute; reflexivity. Qed.

Example Math_examples :
  Math_round 2.5 = 3 /\ Math_round (-2.5) = -2 /\ Math_round 0.49999999999999994 = 0
  /\ Math_round (-0.2) = -0 /\ Math_round 1e300 = 1e300
  /\ Math_max (-0) 0 = 0 /\ Math_min 0 (-0) = -0
  /\ isNaN (Math_max nan 1) = true.
Proof. split_conj; vm_compute; reflexivity. Qed.

Example string_examples :
  JsString.trim "  N/A  " = "N/A"%string
  /\ JsString.toLowerCase "Repower" = "repower"%string
  /\ JsString.includes "bilateral sale" "sale" = true
  /\ JsString.includes "bilateral" "sale" = false.
Proof. split_conj; vm_compute; reflexivity. Qed.

End BuiltIns.

(* ===================================================================== *)
(** ** Capacity size score *)
(* ===================================================================== *)

Section CapacitySize.

Import BackendScores.
Local Open Scope float_scope.

(** C10: [calculateCapacitySizeScore] returns null when [mw] is null,
    undefined, the empty string or does not parse to a number; otherwise 1
    when the parsed value strictly exceeds the threshold (150 for a
    portfolio, 50 otherwise) and 0 when it is at or below it. Exactly 50 MW
    (individual) and exactly 150 MW (portfolio) score 0. *)
Theorem calculateCapacitySizeScore_threshold (mw : JsValue) (isPortfolio : bool) :
  ((isNull mw || isUndefined mw || isEmptyString mw)%bool = true ->
     calculateCapacitySizeScore mw (JBool isPortfolio) = JNull)
  /\ (isNaN (parseFloat mw) = true ->
        calculateCapacitySizeScore mw (JBool isPortfolio) = JNull)
  /\ ((isNull mw || isUndefined mw || isEmptyString mw)%bool = false ->
      isNaN (parseFloat mw) = false ->
      (capacityThreshold isPortfolio <? parseFloat mw) = true ->
        calculateCapacitySizeScore mw (JBool isPortfolio) = JNum 1)
  /\ ((isNull mw || isUndefined mw || isEmptyString mw)%bool = false ->
      isNaN (parseFloat mw) = false ->
      (parseFloat mw <=? capacityThreshold isPortfolio) = true ->
        calculateCapacitySizeScore mw (JBool isPortfolio) = JNum 0)
  /\ calculateCapacitySizeScore mw JUndefined
     = calculateCapacitySizeScore mw (JBool false)
  /\ calculateCapacitySizeScore (JNum 50) (JBool false) = JNum 0
  /\ calculateCapacitySizeScore (JNum 150) (JBool true) = JNum 0.
Proof.
  unfold calculateCapacitySizeScore, capacityThreshold. simpl isUndefined.
  cbv iota. simpl ToBoolean.
  split_conj.
  - intros ->. reflexivity.
  - intros H. destruct (isNull mw || isUndefined mw || isEmptyString mw)%bool;
      [reflexivity | now rewrite H].
  - intros -> -> H. destruct isPortfolio; now rewrite H.
  - intros -> -> H. apply leb_not_ltb in H. destruct isPortfolio; now rewrite H.
  - reflexivity.
  - vm_compute. reflexivity.
  - vm_compute. reflexivity.
Qed.

Lemma calculateCapacitySizeScore_threshold_witness :
  calculateCapacitySizeScore (JStr "75.5") (JBool false) = JNum 1
  /\ calculateCapacitySizeScore (JStr "120") (JBool true) = JNum 0
  /\ calculateCapacitySizeScore (JStr "") (JBool true) = JNull
  /\ calculateCapacitySizeScore (JStr "n/a") (JBool false) = JNull.
Proof.
  split_conj.
  - apply (proj1 (proj2 (proj2 (calculateCapacitySizeScore_threshold (JStr "75.5") false))));
      vm_compute; reflexivity.
  - apply (proj1 (proj2 (proj2 (proj2
             (calculateCapacitySizeScore_threshold (JStr "120") true)))));
      vm_compute; reflexivity.
  - apply (proj1 (calculateCapacitySizeScore_threshold (JStr "") true));
      vm_compute; reflexivity.
  - apply (proj1 (proj2 (calculateCapacitySizeScore_threshold (JStr "n/a") false)));
      vm_compute; reflexivity.
Defined.

End CapacitySize.

(* ===================================================================== *)
(** ** Composite scores *)
(* ===================================================================== *)

Section CompositeScores.

Import ScoreCalculations.
Local Open Scope float_scope.

Ltac each_subScore :=
  repeat match goal with
         | H : In _ subScores |- _ => unfold subScores in H; simpl in H
         | H : _ \/ _ |- _ => destruct H as [H | H]
         | H : False |- _ => destruct H
         | H : _ = ?x |- _ => is_var x; subst x
         end.

(** *** Thermal score *)

(** [calculateThermalScore] returns a number that is not NaN, whatever the
    data. *)
Lemma calculateThermalScore_number (data : Object) :
  exists x, calculateThermalScore data = JNum x /\ isNaN x = false.
Proof.
  unfold calculateThermalScore. cbv zeta.
  match goal with |- context [isNaN ?s] =>
    match s with context [Math_max] => destruct (isNaN s) eqn:E end end.
  - exists 0. split; reflexivity.
  - eexists. split; [reflexivity | exact E].
Qed.

(** With the five sub-scores present, the thermal score is the weighted
    sum, the thermal optimization score being raised to 1 at least. *)
Lemma calculateThermalScore_present (c m t o e : number) :
  In c subScores -> In m subScores -> In t subScores -> In o subScores ->
  In e subScores ->
  calculateThermalScore (thermalInputs (JNum c) (JNum m) (JNum t) (JNum o) (JNum e))
  = JNum (c * 0.20 + m * 0.30 + t * 0.30 + Math_max 1 o * 0.05 + e * 0.15).
Proof.
  intros Hc Hm Ht Ho He. each_subScore; vm_compute; reflexivity.
Qed.

(** C1: the thermal score is specified to be MISSING as soon as one of its
    five inputs is MISSING. With COD missing (null) and markets 3,
    transactability 1, thermal optimization 0, environmental 2,
    [calculateThermalScore] takes COD as 0 and returns the number 1.55, not
    null; with every input missing it returns 0.35. *)
Theorem calculateThermalScore_missing_cod :
  calculateThermalScore missingCodInputs = JNum 1.55
  /\ calculateThermalScore missingCodInputs <> JNull
  /\ calculateThermalScore ∅ = JNum 0.35.
Proof.
  split_conj.
  - vm_compute. reflexivity.
  - vm_compute. discriminate.
  - vm_compute. reflexivity.
Qed.

(** *** Redevelopment score *)

Lemma calculateRedevelopmentScore_number (data : Object) :
  exists x, calculateRedevelopmentScore data = JNum x /\ isNaN x = false.
Proof.
  unfold calculateRedevelopmentScore. cbv zeta.
  match goal with |- context [if ?b then JNum 0 else _] => destruct b end.
  - exists 0. split; reflexivity.
  - match goal with |- context [isNaN ?s] => destruct (isNaN s) eqn:E end.
    + exists 0. split; reflexivity.
    + eexists. split; [reflexivity | exact E].
Qed.

Lemma prop_redevInputs (market infra ix flag : JsValue) :
  let data := redevInputs market infra ix flag in
  prop data "market_score" = market /\ prop data "Market Score" = JUndefined
  /\ prop data "infra" = infra /\ prop data "Infra" = JUndefined
  /\ prop data "ix" = ix /\ prop data "IX" = JUndefined
  /\ prop data "co_locate_repower" = flag
  /\ prop data "Co-Locate/Repower" = JUndefined.
Proof. vm_compute. split_conj; reflexivity. Qed.

Lemma getScore2_subScore (x : number) :
  In x subScores -> getScore2 (JNum x) JUndefined 2 = x.
Proof. intros H. each_subScore; vm_compute; reflexivity. Qed.

Lemma coLocate_text (flag : string) :
  ToString (or (or (JStr flag) JUndefined) (JStr "")) = flag.
Proof. destruct flag; reflexivity. Qed.

(** With the three sub-scores present: 0 as soon as one of them is 0;
    otherwise the weighted sum times the multiplier, which is 0.75 exactly
    when the flag, lower-cased and trimmed, is ["repower"]. *)
Lemma calculateRedevelopmentScore_present (m i x : number) (flag : string) :
  In m subScores -> In i subScores -> In x subScores ->
  calculateRedevelopmentScore (redevInputs (JNum m) (JNum i) (JNum x) (JStr flag))
  = if ((m =? 0) || (i =? 0) || (x =? 0))%bool then JNum 0
    else JNum ((m * 0.40 + i * 0.30 + x * 0.30)
               * (if String.eqb (JsString.trim (JsString.toLowerCase flag)) "repower"
                  then 0.75 else 1)).
Proof.
  intros Hm Hi Hx. unfold calculateRedevelopmentScore.
  destruct (prop_redevInputs (JNum m) (JNum i) (JNum x) (JStr flag))
    as (-> & -> & -> & -> & -> & -> & -> & ->).
  rewrite coLocate_text, !getScore2_subScore by assumption. cbv zeta.
  destruct (String.eqb _ "repower"); each_subScore; vm_compute; reflexivity.
Qed.

(** C2: the redevelopment score is specified to be MISSING as soon as one
    of market, infra, ix is MISSING. With the market sub-score missing
    (null), infra 2 and ix 3, [calculateRedevelopmentScore] takes the
    market as 2 and returns the number 2.3, not null; with every input
    missing it returns 2. *)
Theorem calculateRedevelopmentScore_missing_market :
  calculateRedevelopmentScore missingMarketInputs = JNum 2.3
  /\ calculateRedevelopmentScore missingMarketInputs <> JNull
  /\ calculateRedevelopmentScore ∅ = JNum 2.
Proof.
  split_conj.
  - vm_compute. reflexivity.
  - vm_compute. discriminate.
  - vm_compute. reflexivity.
Qed.

(** *** Overall score *)

Lemma calculateOverallScore_number (thermal redev : JsValue) :
  exists x, calculateOverallScore thermal redev = JNum x.
Proof. eexists. reflexivity. Qed.

(** C3: the overall score is specified to be MISSING as soon as one of its
    two inputs is MISSING, and never to take a MISSING input as 0. With the
    thermal score missing (null) and the redevelopment score 2.025,
    [calculateOverallScore] takes the thermal score as 0 and returns 2.025;
    with both missing it returns 0. *)
Theorem calculateOverallScore_missing_thermal :
  orZero (parseFloat JNull) = 0
  /\ calculateOverallScore JNull (JNum 2.025) = JNum 2.025
  /\ calculateOverallScore JNull (JNum 2.025) <> JNull
  /\ calculateOverallScore JNull JNull = JNum 0.
Proof.
  split_conj.
  - vm_compute. reflexivity.
  - vm_compute. reflexivity.
  - vm_compute. discriminate.
  - vm_compute. reflexivity.
Qed.

(** With both inputs present the overall score is their sum. *)
Lemma calculateOverallScore_example :
  calculateOverallScore (JNum 1.95) (JNum 2.025) = JNum (1.95 + 2.025).
Proof. vm_compute. reflexivity. Qed.

End CompositeScores.

(* ===================================================================== *)
(** ** Rating *)
(* ===================================================================== *)

Section Rating.

Import ScoreCalculations Scoring.
Local Open Scope float_scope.






(** The rating of [generateExpertAnalysis] is taken from the text with one
    decimal: an overall score of 4.45 reads ["4.5"]. *)
Lemma analyseScores_one_decimal :
  option_map overallScore
    (analyseScores {| thermal_score := JNum 2; redevelopment_score := JNum 2.45;
                      overall_score := JNum 4.45; overall_rating := "Moderate" |})
  = Some "4.5".
Proof. vm_compute. reflexivity. Qed.

End Rating.

(* ===================================================================== *)
(** ** Facts on strings *)
(* ===================================================================== *)

Section StringFacts.

Import JsString.

Lemma startsWith_occurs (c : ascii) (p s : string) :
  startsWith s p = true -> occurs c p -> occurs c s.
Proof.
  revert s. induction p as [|a p IH]; intros s H Hc; [destruct Hc|].
  destruct s as [|b s]; [discriminate H|]. simpl in H.
  destruct (Ascii.eqb a b) eqn:E; [|discriminate H].
  apply Ascii.eqb_eq in E. subst b. destruct Hc as [<-|Hc].
  - now left.
  - right. now apply IH.
Qed.

Lemma includes_cons (b : ascii) (s p : string) :
  includes (String b s) p
  = if startsWith (String b s) p then true else includes s p.
Proof. reflexivity. Qed.

Lemma includes_occurs (c : ascii) (p s : string) :
  includes s p = true -> occurs c p -> occurs c s.
Proof.
  intros H Hc. induction s as [|b s IH].
  - destruct p; [destruct Hc | discriminate H].
  - rewrite includes_cons in H. destruct (startsWith (String b s) p) eqn:E.
    + exact (startsWith_occurs c p _ E Hc).
    + right. now apply IH.
Qed.

Lemma occurs_toLowerCase (c : ascii) (s : string) :
  occurs c (toLowerCase s) -> exists c', occurs c' s /\ lowerChar c' = c.
Proof.
  induction s as [|a s IH]; simpl; [intros []|].
  intros [H|H].
  - exists a. split; [now left | exact H].
  - destruct (IH H) as (c' & Hc' & E). exists c'. split; [now right | exact E].
Qed.

Lemma occurs_trimStart (c : ascii) (s : string) :
  occurs c s -> isWhiteSpace c = true \/ occurs c (trimStart s).
Proof.
  induction s as [|a s IH]; simpl; [intros []|].
  destruct (isWhiteSpace a) eqn:E.
  - intros [<-|H]; [now left | now apply IH].
  - intros H. right. exact H.
Qed.

Lemma occurs_trimEnd (c : ascii) (s : string) :
  occurs c s -> isWhiteSpace c = true \/ occurs c (trimEnd s).
Proof.
  induction s as [|a s IH]; simpl; [intros []|].
  intros [<-|H].
  - destruct (trimEnd s); [destruct (isWhiteSpace a) eqn:E|].
    + now left.
    + right. now left.
    + right. now left.
  - destruct (IH H) as [W|O]; [now left|]. right.
    destruct (trimEnd s); [destruct O | now right].
Qed.

Lemma occurs_trim (c : ascii) (s : string) :
  occurs c s -> isWhiteSpace c = true \/ occurs c (trim s).
Proof.
  intros H. destruct (occurs_trimStart c s H) as [W|O]; [now left|].
  exact (occurs_trimEnd c _ O).
Qed.

Lemma startsWith_toLowerCase (s p : string) :
  startsWith s p = true -> startsWith (toLowerCase s) (toLowerCase p) = true.
Proof.
  revert s. induction p as [|a p IH]; intros s H; [reflexivity|].
  destruct s as [|b s]; [discriminate H|]. simpl in H |- *.
  destruct (Ascii.eqb a b) eqn:E; [|discriminate H].
  apply Ascii.eqb_eq in E. subst b. rewrite Ascii.eqb_refl. now apply IH.
Qed.

Lemma includes_toLowerCase (s p : string) :
  includes s p = true -> includes (toLowerCase s) (toLowerCase p) = true.
Proof.
  induction s as [|b s IH]; intros H.
  - destruct p; [reflexivity | discriminate H].
  - rewrite includes_cons in H.
    change (toLowerCase (String b s)) with (String (lowerChar b) (toLowerCase s)).
    rewrite includes_cons.
    destruct (startsWith (String b s) p) eqn:E.
    + apply startsWith_toLowerCase in E.
      change (toLowerCase (String b s)) with (String (lowerChar b) (toLowerCase s)) in E.
      now rewrite E.
    + destruct (startsWith _ (toLowerCase p)); [reflexivity | now apply IH].
Qed.

(** A white-space code unit is no letter. *)
Lemma whiteSpace_lowerChar (c : ascii) :
  isWhiteSpace c = true -> lowerChar c = c.
Proof.
  destruct c as [[] [] [] [] [] [] [] []]; intros H;
    first [discriminate H | reflexivity].
Qed.

End StringFacts.

(* ===================================================================== *)
(** ** Missing values *)
(* ===================================================================== *)

Section MissingValues.

Import JsString NaValues SCORE_MAPPINGS.
Local Open Scope float_scope.

Lemma classify_string (s : string) :
  classify (JStr s) = MISSING -> isSentinel (trim s) = true.
Proof. simpl. destruct (isSentinel (trim s)); [reflexivity | discriminate]. Qed.

Lemma isSentinel_cases (t : string) :
  isSentinel t = true -> t = "" \/ t = "#N/A" \/ t = "N/A" \/ t = "#VALUE!".
Proof.
  unfold isSentinel. rewrite !orb_true_iff, !String.eqb_eq. tauto.
Qed.

(** What [isNA] gets right: a number, 0 included, is not N/A; undefined,
    null and the strings whose trimmed text is empty, ["#N/A"] or ["N/A"]
    are. *)
Lemma isNA_classification :
  (forall x : number, isNA (JNum x) = false)
  /\ isNA (JNum 0) = false
  /\ isNA JUndefined = true /\ isNA JNull = true
  /\ (forall s : string,
         trim s = "" \/ trim s = "#N/A" \/ trim s = "N/A" -> isNA (JStr s) = true).
Proof.
  split_conj; try reflexivity.
  intros s [H | [H | H]]; unfold isNA; simpl; rewrite H; reflexivity.
Qed.

(** C4: the classifier is specified to return MISSING for the sentinel
    ["#VALUE!"]. [isNA] returns false on it (the value is taken as present),
    while every mapping of SCORE_MAPPINGS takes the same text as missing. *)
Theorem isNA_VALUE_sentinel :
  isNA (JStr "#VALUE!") = false
  /\ classify (JStr "#VALUE!") = MISSING
  /\ environmental (JStr "#VALUE!") = JNull
  /\ cod (JStr "#VALUE!") = JNull
  /\ infra (JStr "#VALUE!") = JNull.
Proof. split_conj; vm_compute; reflexivity. Qed.

(** A string whose trimmed text is a sentinel is made of white space and
    of the code units of the sentinels. *)
Lemma sentinel_occurs (s : string) (c : ascii) :
  isSentinel (trim s) = true -> occurs c s ->
  isWhiteSpace c = true \/ occurs c "#N/A" \/ occurs c "#VALUE!".
Proof.
  intros Hs Hc. destruct (occurs_trim c s Hc) as [W|O]; [now left|]. right.
  destruct (isSentinel_cases _ Hs) as [E | [E | [E | E]]]; rewrite E in O.
  - destruct O.
  - now left.
  - left. simpl in O |- *. tauto.
  - now right.
Qed.

(** Such a string has no letter that lower-cases to [r] or [o]. *)
Lemma sentinel_no_letter (s : string) (c : ascii) :
  isSentinel (trim s) = true -> c = "r"%char \/ c = "o"%char ->
  ~ occurs c (toLowerCase s).
Proof.
  intros Hs Hc Ho. destruct (occurs_toLowerCase c s Ho) as (c' & Hc' & E).
  destruct (sentinel_occurs s c' Hs Hc') as [W | [O | O]].
  - rewrite (whiteSpace_lowerChar c' W) in E. subst c'.
    destruct Hc as [-> | ->]; discriminate W.
  - simpl in O. destruct O as [<- | [<- | [<- | [<- | []]]]];
      destruct Hc as [-> | ->]; discriminate E.
  - simpl in O.
    destruct O as [<- | [<- | [<- | [<- | [<- | [<- | [<- | []]]]]]]];
      destruct Hc as [-> | ->]; discriminate E.
Qed.

Lemma sentinel_no_keyword (s : string) :
  isSentinel (trim s) = true ->
  includes (toLowerCase s) "readily apparent" = false
  /\ includes (toLowerCase s) "no identifiable" = false.
Proof.
  intros Hs. split.
  - destruct (includes _ "readily apparent") eqn:E; [exfalso | reflexivity].
    apply (sentinel_no_letter s "r" Hs); [now left|].
    apply (includes_occurs _ _ _ E). simpl. tauto.
  - destruct (includes _ "no identifiable") eqn:E; [exfalso | reflexivity].
    apply (sentinel_no_letter s "o" Hs); [now right|].
    apply (includes_occurs _ _ _ E). simpl. tauto.
Qed.

Lemma mappings_missing (v : JsValue) :
  classify v = MISSING ->
  cod v = JNull /\ capacityFactor v = JNull /\ market v = JNull
  /\ transactability v = JNull /\ environmental v = JNull
  /\ redevMarket v = JNull /\ infra v = JNull /\ ix v = JNull.
Proof.
  intros H. destruct v as [| | b | x | s]; try discriminate H;
    try (split_conj; reflexivity).
  apply classify_string in H.
  unfold cod, capacityFactor, market, transactability, environmental,
    redevMarket, infra, ix, integerRating, continuousRating.
  simpl ToString. simpl isZero. cbv zeta. rewrite H.
  destruct (isAbsent (JStr s)); split_conj; reflexivity.
Qed.

Lemma thermalOptimization_missing (v : JsValue) :
  classify v = MISSING -> thermalOptimization v = JNum 0.
Proof.
  intros H. destruct v as [| | b | x | s]; try discriminate H; try reflexivity.
  apply classify_string in H. destruct (sentinel_no_keyword s H) as [K1 K2].
  unfold thermalOptimization. rewrite K1, K2. simpl ToString. simpl isZero.
  cbv zeta. rewrite H.
  destruct (ToBoolean (JStr s)); destruct (isAbsent (JStr s)); reflexivity.
Qed.

Lemma thermalOptimization_readily (s : string) :
  includes (toLowerCase s) "readily apparent" = true ->
  thermalOptimization (JStr s) = JNum 2.
Proof.
  intros H. unfold thermalOptimization. rewrite H.
  destruct s; [discriminate H | reflexivity].
Qed.

Lemma thermalOptimization_no_identifiable (s : string) :
  includes (toLowerCase s) "readily apparent" = false ->
  includes (toLowerCase s) "no identifiable" = true ->
  thermalOptimization (JStr s) = JNum 1.
Proof.
  intros H1 H2. unfold thermalOptimization. rewrite H1, H2.
  destruct s; [discriminate H2 | reflexivity].
Qed.

End MissingValues.

(* ===================================================================== *)
(** ** Transactability *)
(* ===================================================================== *)

Section Transactability.

Import JsString SCORE_MAPPINGS.
Local Open Scope float_scope.

(** [Math.max(y, 0)] of a number is a number at or above 0. *)
Lemma Math_max_zero (y : number) :
  isNaN y = false ->
  isNaN (Math_max y 0) = false /\ (0 <=? Math_max y 0) = true.
Proof.
  intros Hy. unfold Math_max. rewrite Hy.
  change (isNaN 0) with false. simpl orb. cbv iota.
  destruct (y <? 0) eqn:A; [split; reflexivity|].
  destruct (0 <? y) eqn:B; [split; [exact Hy | exact (ltb_leb _ _ B)]|].
  destruct (get_sign y); [split; reflexivity|].
  split; [exact Hy | exact (not_ltb_leb y 0 Hy eq_refl A)].
Qed.

(** [Math.min(a, 3)] of a number at or above 0 lies between 0 and 3. *)
Lemma Math_min_three (a : number) :
  isNaN a = false -> (0 <=? a) = true ->
  (0 <=? Math_min a 3) = true /\ (Math_min a 3 <=? 3) = true.
Proof.
  intros Ha H0. unfold Math_min. rewrite Ha.
  change (isNaN 3) with false. simpl orb. cbv iota.
  destruct (a <? 3) eqn:C; [split; [exact H0 | exact (ltb_leb _ _ C)]|].
  destruct (3 <? a) eqn:D; [split; reflexivity|].
  destruct (get_sign a); [|split; reflexivity].
  split; [exact H0 | exact (not_ltb_leb 3 a eq_refl Ha D)].
Qed.

(** Clamping a number to the range from 0 to 3. *)
Lemma clamp_range (y : number) :
  isNaN y = false ->
  (0 <=? Math_min (Math_max y 0) 3) = true
  /\ (Math_min (Math_max y 0) 3 <=? 3) = true.
Proof.
  intros Hy. destruct (Math_max_zero y Hy) as [Ha H0].
  exact (Math_min_three _ Ha H0).
Qed.

(** C6: for a present text, lower-cased: "bilateral" and "developed" give
    3; otherwise "bilateral", or "process" together with "less than 10",
    give 2 (the "or" binds as bilateral OR (process AND less than 10));
    otherwise "competitive" and "more than 10" give 1; any other text
    gives 2. A number is rounded and clamped to the range from 0 to 3. *)
Theorem transactability_rules :
  (forall s : string,
      isSentinel (trim s) = false ->
      let lowerType := toLowerCase (trim s) in
      let bilateral := includes lowerType "bilateral" in
      let developed := includes lowerType "developed" in
      let process := includes lowerType "process" in
      let lessThan10 := includes lowerType "less than 10" in
      let competitive := includes lowerType "competitive" in
      let moreThan10 := includes lowerType "more than 10" in
      (bilateral = true /\ developed = true ->
         transactability (JStr s) = JNum 3)
      /\ (~ (bilateral = true /\ developed = true) ->
          bilateral = true \/ (process = true /\ lessThan10 = true) ->
            transactability (JStr s) = JNum 2)
      /\ (bilateral = false -> ~ (process = true /\ lessThan10 = true) ->
          competitive = true /\ moreThan10 = true ->
            transactability (JStr s) = JNum 1)
      /\ (bilateral = false -> ~ (process = true /\ lessThan10 = true) ->
          ~ (competitive = true /\ moreThan10 = true) ->
            transactability (JStr s) = JNum 2))
  /\ transactability (JStr precedenceText) = JNum 2
  /\ (forall x : number,
        isNaN (parseFloat (JNum x)) = false ->
        let clamped := Math_min (Math_max (Math_round (parseFloat (JNum x))) 0) 3 in
        transactability (JNum x) = JNum clamped
        /\ (isNaN (Math_round (parseFloat (JNum x))) = false ->
            (0 <=? clamped) = true /\ (clamped <=? 3) = true)).
Proof.
  split_conj.
  - intros s Hs. cbv zeta.
    assert (A : isAbsent (JStr s) = false).
    { destruct s; [discriminate Hs | reflexivity]. }
    unfold transactability. rewrite A, Hs. cbv zeta.
    destruct (includes (toLowerCase (trim s)) "bilateral");
      destruct (includes (toLowerCase (trim s)) "developed");
      destruct (includes (toLowerCase (trim s)) "process");
      destruct (includes (toLowerCase (trim s)) "less than 10");
      destruct (includes (toLowerCase (trim s)) "competitive");
      destruct (includes (toLowerCase (trim s)) "more than 10");
      simpl; split_conj; intros; try reflexivity; exfalso;
      intuition discriminate.
  - vm_compute. reflexivity.
  - intros x Hx. cbv zeta. split.
    + unfold transactability. simpl isAbsent. cbv iota. cbv zeta.
      rewrite Hx. reflexivity.
    + intros Hr. exact (clamp_range _ Hr).
Qed.

Lemma transactability_rules_witness :
  transactability (JStr "Bilateral w/ developed relationship") = JNum 3
  /\ transactability (JStr "Process, less than 10 bidders") = JNum 2
  /\ transactability (JStr "Competitive process (more than 10 bidders)") = JNum 1
  /\ transactability (JStr "Unknown") = JNum 2
  /\ transactability (JNum 2.5) = JNum 3.
Proof.
  split_conj.
  - apply (proj1 (proj1 transactability_rules
                    "Bilateral w/ developed relationship" eq_refl)).
    split; vm_compute; reflexivity.
  - apply (proj1 (proj2 (proj1 transactability_rules
                           "Process, less than 10 bidders" eq_refl))).
    + vm_compute. intros [H _]. discriminate H.
    + right. split; vm_compute; reflexivity.
  - apply (proj1 (proj2 (proj2 (proj1 transactability_rules
                    "Competitive process (more than 10 bidders)" eq_refl)))).
    + vm_compute. reflexivity.
    + vm_compute. intros [_ H]. discriminate H.
    + split; vm_compute; reflexivity.
  - apply (proj2 (proj2 (proj2 (proj1 transactability_rules "Unknown" eq_refl)))).
    + vm_compute. reflexivity.
    + vm_compute. intros [H _]. discriminate H.
    + vm_compute. intros [H _]. discriminate H.
  - exact (proj1 (proj2 (proj2 transactability_rules) 2.5%float eq_refl)).
Defined.

End Transactability.

(* ===================================================================== *)
(** ** Child entries of a project *)
(* ===================================================================== *)

Section ChildEntries.

Import Transmission.
Local Open Scope list_scope.

Lemma entriesOf_app (projectId : string) (t u : Table) :
  entriesOf projectId (t ++ u) = entriesOf projectId t ++ entriesOf projectId u.
Proof. unfold entriesOf. now rewrite List.filter_app, List.map_app. Qed.

Lemma entriesOf_deleteByProject_same (projectId : string) (t : Table) :
  entriesOf projectId (deleteByProject projectId t) = [].
Proof.
  unfold entriesOf, deleteByProject. induction t as [|r t IH]; [reflexivity|].
  simpl. destruct (String.eqb (project_id r) projectId) eqn:E; simpl.
  - exact IH.
  - rewrite E. exact IH.
Qed.

Lemma entriesOf_deleteByProject_other (projectId other : string) (t : Table) :
  other <> projectId ->
  entriesOf other (deleteByProject projectId t) = entriesOf other t.
Proof.
  intros Hne. unfold entriesOf, deleteByProject.
  induction t as [|r t IH]; [reflexivity|]. simpl.
  destruct (String.eqb (project_id r) projectId) eqn:E; simpl.
  - apply String.eqb_eq in E.
    destruct (String.eqb (project_id r) other) eqn:F; [|exact IH].
    apply String.eqb_eq in F. congruence.
  - destruct (String.eqb (project_id r) other); simpl; now rewrite IH.
Qed.

Lemma entriesOf_inserted_same (projectId : string) (entries : list Object) :
  entriesOf projectId
    (List.map (fun e => {| project_id := projectId; entry := e |}) entries)
  = entries.
Proof.
  unfold entriesOf. induction entries as [|e l IH]; [reflexivity|].
  simpl. rewrite String.eqb_refl. simpl. now rewrite IH.
Qed.

Lemma entriesOf_inserted_other (projectId other : string) (entries : list Object) :
  other <> projectId ->
  entriesOf other
    (List.map (fun e => {| project_id := projectId; entry := e |}) entries)
  = [].
Proof.
  intros Hne. unfold entriesOf. induction entries as [|e l IH]; [reflexivity|].
  simpl. destruct (String.eqb projectId other) eqn:E; [|exact IH].
  apply String.eqb_eq in E. congruence.
Qed.

Lemma entriesOf_insertEntries (projectId other : string) (entries : list Object)
    (t : Table) :
  entriesOf other (insertEntries projectId entries t)
  = entriesOf other t
    ++ entriesOf other
         (List.map (fun e => {| project_id := projectId; entry := e |}) entries).
Proof.
  unfold insertEntries. destruct entries as [|e l].
  - simpl. now rewrite List.app_nil_r.
  - apply entriesOf_app.
Qed.

(** C9: a replacement set of more than 5 entries is refused with an error
    and the stored table is left as it was; a set of at most 5 entries
    replaces the entries of the project, those of the other projects being
    kept; the empty set is accepted and leaves the project with no entry. *)
Theorem replaceChildEntries_cap (projectId : string) (entries : list Object)
    (t : Table) :
  (5 < List.length entries ->
     exists message, replaceChildEntries projectId entries t = (Failed message, t))
  /\ (List.length entries <= 5 ->
        exists t', replaceChildEntries projectId entries t = (Ok tt, t')
                   /\ entriesOf projectId t' = entries
                   /\ forall other, other <> projectId ->
                        entriesOf other t' = entriesOf other t)
  /\ (exists t', replaceChildEntries projectId [] t = (Ok tt, t')
                 /\ entriesOf projectId t' = []).
Proof.
  unfold replaceChildEntries. split_conj.
  - intros H. apply Nat.ltb_lt in H. rewrite H. eexists. reflexivity.
  - intros H. apply Nat.ltb_ge in H. rewrite H. eexists. split; [reflexivity|].
    split.
    + rewrite entriesOf_insertEntries, entriesOf_deleteByProject_same,
        entriesOf_inserted_same. reflexivity.
    + intros other Hne.
      rewrite entriesOf_insertEntries, entriesOf_deleteByProject_other,
        entriesOf_inserted_other by assumption.
      apply List.app_nil_r.
  - eexists. split; [reflexivity|]. simpl.
    apply entriesOf_deleteByProject_same.
Qed.

Lemma replaceChildEntries_cap_witness :
  (exists message,
      replaceChildEntries "7"
        (List.map sampleEntry ["1"; "2"; "3"; "4"; "5"; "6"]) sampleTable
      = (Failed message, sampleTable))
  /\ (exists t',
         replaceChildEntries "7" [sampleEntry "230 kV"] sampleTable = (Ok tt, t')
         /\ entriesOf "7" t' = [sampleEntry "230 kV"]
         /\ forall other, other <> "7" -> entriesOf other t' = entriesOf other sampleTable).
Proof.
  split.
  - apply (proj1 (replaceChildEntries_cap "7"
                    (List.map sampleEntry ["1"; "2"; "3"; "4"; "5"; "6"]) sampleTable)).
    simpl. lia.
  - apply (proj1 (proj2 (replaceChildEntries_cap "7" [sampleEntry "230 kV"] sampleTable))).
    simpl. lia.
Defined.

End ChildEntries.

(* ===================================================================== *)
(** ** Saving an override *)
(* ===================================================================== *)

Section SaveOverride.

Import ScoreCalculations Lifecycle.
Local Open Scope list_scope.

(** A run either fails or applies every operation. *)
Lemma execute_outcome (ops : list StorageOp) (fault : option nat) (work : Database) :
  execute ops fault work = None \/ execute ops fault work = Some (applyAll ops work).
Proof.
  revert fault work.
  induction ops as [|op rest IH]; intros [[|k]|] work; simpl; auto.
Qed.

Lemma execute_no_fault (ops : list StorageOp) (work : Database) :
  execute ops None work = Some (applyAll ops work).
Proof.
  revert work. induction ops as [|op rest IH]; intros work; [reflexivity|].
  simpl. apply IH.
Qed.

(** A transaction commits every operation or leaves the database as it
    was. *)
Lemma transaction_atomic (ops : list StorageOp) (fault : option nat) (db : Database) :
  transaction ops fault db = (Ok tt, applyAll ops db)
  \/ transaction ops fault db = (Failed "storage error", db).
Proof.
  unfold transaction. destruct (execute_outcome ops fault db) as [E | E];
    rewrite E; auto.
Qed.

(** C8: [saveOverride] is atomic. Whatever the point at which the storage
    fails, either the current record is overwritten and the history entry
    with the same values is appended, or the database is left as it was; a
    failure after the write of the current record and before the append of
    the history entry leaves it as it was. *)
Theorem saveOverride_atomic (projectId : N) (rawFields : Object)
    (coLocateFlag : JsValue) (editor : string) (timestamp : N)
    (changeSummary : string) (fault : option nat) (db : Database) :
  let record := savedRecord rawFields coLocateFlag editor timestamp in
  let entry := {| history_project := projectId; snapshot := record;
                  changes_summary := changeSummary |} in
  let save := saveOverride projectId rawFields coLocateFlag editor timestamp
                changeSummary in
  ((exists db', save fault db = (Ok record, db')
                /\ projects db' !! projectId = Some record
                /\ history db' = history db ++ [entry])
   \/ (exists message, save fault db = (Failed message, db)))
  /\ (exists message, save (Some 1) db = (Failed message, db))
  /\ (exists db', save None db = (Ok record, db')
                  /\ projects db' !! projectId = Some record
                  /\ history db' = history db ++ [entry]).
Proof.
  cbv zeta. unfold saveOverride. cbv zeta.
  change {| components := <["co_locate_repower" := coLocateFlag]> rawFields;
            scores := calculateAllScores
                        (<["co_locate_repower" := coLocateFlag]> rawFields);
            edited_by := editor; edited_at := timestamp |}
    with (savedRecord rawFields coLocateFlag editor timestamp).
  set (record := savedRecord rawFields coLocateFlag editor timestamp).
  set (entry := {| history_project := projectId; snapshot := record;
                   changes_summary := changeSummary |}).
  assert (Applied : projects (applyAll [WriteCurrent projectId record;
                                         AppendHistory entry] db) !! projectId
                    = Some record
                    /\ history (applyAll [WriteCurrent projectId record;
                                          AppendHistory entry] db)
                       = history db ++ [entry]).
  { simpl. split; [apply lookup_insert_eq | reflexivity]. }
  split_conj.
  - destruct (transaction_atomic [WriteCurrent projectId record; AppendHistory entry]
                fault db) as [E | E]; rewrite E.
    + left. eexists. split; [reflexivity | exact Applied].
    + right. eexists. reflexivity.
  - eexists. reflexivity.
  - unfold transaction. rewrite execute_no_fault.
    eexists. split; [reflexivity | exact Applied].
Qed.

End SaveOverride.

(* ===================================================================== *)
(** ** The order of binary64 numbers is a total order *)
(* ===================================================================== *)

Lemma SFltb_key (f1 f2 : spec_float) :
  SFltb f1 f2 = match SFkey f1, SFkey f2 with
                | Some k1, Some k2 => keyLtb k1 k2
                | _, _ => false
                end.
Proof.
  unfold SFltb.
  destruct f1 as [s1|s1| |s1 m1 e1], f2 as [s2|s2| |s2 m2 e2]; simpl;
    try reflexivity;
    try (destruct s1; reflexivity); try (destruct s2; reflexivity);
    try (destruct s1, s2; reflexivity).
  destruct s1, s2; simpl; try reflexivity;
    destruct (Z.compare_spec e1 e2) as [E | E | E];
    match goal with
    | |- _ = (?a <? ?b)%Z || _ =>
        destruct (Z.ltb_spec a b); destruct (Z.eqb_spec a b)
    end; try lia; reflexivity.
Qed.

Lemma SFleb_key (f1 f2 : spec_float) :
  SFleb f1 f2 = match SFkey f1, SFkey f2 with
                | Some k1, Some k2 => keyLeb k1 k2
                | _, _ => false
                end.
Proof.
  unfold SFleb.
  destruct f1 as [s1|s1| |s1 m1 e1], f2 as [s2|s2| |s2 m2 e2]; simpl;
    try reflexivity;
    try (destruct s1; reflexivity); try (destruct s2; reflexivity);
    try (destruct s1, s2; reflexivity).
  destruct s1, s2; simpl; try reflexivity;
    destruct (Z.compare_spec e1 e2) as [E | E | E];
    match goal with
    | |- _ = (?a <? ?b)%Z || _ =>
        destruct (Z.ltb_spec a b); destruct (Z.eqb_spec a b)
    end; try lia; simpl; try reflexivity;
    unfold Z.leb; simpl;
    change (Pos.compare_cont Eq m1 m2) with (Pos.compare m1 m2);
    destruct (m1 ?= m2)%positive; reflexivity.
Qed.

Lemma SFeqb_key (f1 f2 : spec_float) :
  SFeqb f1 f2 = match SFkey f1, SFkey f2 with
                | Some k1, Some k2 => keyEqb k1 k2
                | _, _ => false
                end.
Proof.
  unfold SFeqb.
  destruct f1 as [s1|s1| |s1 m1 e1], f2 as [s2|s2| |s2 m2 e2]; simpl;
    try reflexivity;
    try (destruct s1; reflexivity); try (destruct s2; reflexivity);
    try (destruct s1, s2; reflexivity).
  destruct s1, s2; simpl; try reflexivity;
    destruct (Z.compare_spec e1 e2) as [E | E | E];
    match goal with
    | |- _ = (?a =? ?b)%Z && _ => destruct (Z.eqb_spec a b)
    end; try lia; simpl; try reflexivity;
    unfold Z.eqb; simpl;
    change (Pos.compare_cont Eq m1 m2) with (Pos.compare m1 m2);
    destruct (Pos.compare_spec m1 m2) as [F | F | F];
    try reflexivity; try (subst m2; now rewrite Pos.eqb_refl);
    symmetry; apply Pos.eqb_neq; lia.
Qed.

Lemma eqb_key (x y : number) :
  (x =? y)%float = match numberKey x, numberKey y with
                   | Some k1, Some k2 => keyEqb k1 k2
                   | _, _ => false
                   end.
Proof. rewrite FloatAxioms.eqb_spec. apply SFeqb_key. Qed.

Lemma ltb_key (x y : number) :
  (x <? y)%float = match numberKey x, numberKey y with
                   | Some k1, Some k2 => keyLtb k1 k2
                   | _, _ => false
                   end.
Proof. rewrite FloatAxioms.ltb_spec. apply SFltb_key. Qed.

Lemma leb_key (x y : number) :
  (x <=? y)%float = match numberKey x, numberKey y with
                    | Some k1, Some k2 => keyLeb k1 k2
                    | _, _ => false
                    end.
Proof. rewrite FloatAxioms.leb_spec. apply SFleb_key. Qed.

Lemma isNaN_key (x : number) :
  isNaN x = match numberKey x with Some _ => false | None => true end.
Proof.
  unfold isNaN, is_nan, numberKey. rewrite FloatAxioms.eqb_spec.
  unfold SFeqb. destruct (Prim2SF x) as [s|s| |s m e]; simpl; try reflexivity.
  - destruct s; reflexivity.
  - destruct s; rewrite Z.compare_refl;
      change (Pos.compare_cont Eq m m) with (Pos.compare m m);
      rewrite Pos.compare_refl; reflexivity.
Qed.

Lemma keyLtb_true (a1 b1 c1 a2 b2 c2 : Z) :
  keyLtb (a1, b1, c1) (a2, b2, c2) = true
  <-> (a1 < a2 \/ (a1 = a2 /\ (b1 < b2 \/ (b1 = b2 /\ c1 < c2))))%Z.
Proof.
  unfold keyLtb.
  rewrite !orb_true_iff, !andb_true_iff, !orb_true_iff, !andb_true_iff,
    !Z.ltb_lt, !Z.eqb_eq.
  tauto.
Qed.

Lemma keyLeb_true (a1 b1 c1 a2 b2 c2 : Z) :
  keyLeb (a1, b1, c1) (a2, b2, c2) = true
  <-> (a1 < a2 \/ (a1 = a2 /\ (b1 < b2 \/ (b1 = b2 /\ c1 <= c2))))%Z.
Proof.
  unfold keyLeb.
  rewrite !orb_true_iff, !andb_true_iff, !orb_true_iff, !andb_true_iff,
    !Z.ltb_lt, !Z.eqb_eq, !Z.leb_le.
  tauto.
Qed.

Lemma keyLtb_false (a1 b1 c1 a2 b2 c2 : Z) :
  keyLtb (a1, b1, c1) (a2, b2, c2) = false
  <-> ~ (a1 < a2 \/ (a1 = a2 /\ (b1 < b2 \/ (b1 = b2 /\ c1 < c2))))%Z.
Proof. rewrite <- keyLtb_true. symmetry. apply not_true_iff_false. Qed.

Lemma keyLeb_false (a1 b1 c1 a2 b2 c2 : Z) :
  keyLeb (a1, b1, c1) (a2, b2, c2) = false
  <-> ~ (a1 < a2 \/ (a1 = a2 /\ (b1 < b2 \/ (b1 = b2 /\ c1 <= c2))))%Z.
Proof. rewrite <- keyLeb_true. symmetry. apply not_true_iff_false. Qed.

Lemma keyEqb_true (a1 b1 c1 a2 b2 c2 : Z) :
  keyEqb (a1, b1, c1) (a2, b2, c2) = true <-> (a1 = a2 /\ b1 = b2 /\ c1 = c2)%Z.
Proof. unfold keyEqb. rewrite !andb_true_iff, !Z.eqb_eq. tauto. Qed.

Lemma keyEqb_false (a1 b1 c1 a2 b2 c2 : Z) :
  keyEqb (a1, b1, c1) (a2, b2, c2) = false
  <-> ~ (a1 = a2 /\ b1 = b2 /\ c1 = c2)%Z.
Proof. rewrite <- keyEqb_true. symmetry. apply not_true_iff_false. Qed.

(** Decides a goal on the order of numbers from hypotheses of the same
    kind, by the order of their keys; the numbers are variables or
    constants. *)
Ltac float_order :=
  repeat match goal with
         | H : context [isNaN _] |- _ => rewrite isNaN_key in H
         | H : context [PrimFloat.ltb _ _] |- _ => rewrite ltb_key in H
         | H : context [PrimFloat.leb _ _] |- _ => rewrite leb_key in H
         | H : context [PrimFloat.eqb _ _] |- _ => rewrite eqb_key in H
         | |- context [PrimFloat.eqb _ _] => rewrite eqb_key
         | |- context [isNaN _] => rewrite isNaN_key
         | |- context [PrimFloat.ltb _ _] => rewrite ltb_key
         | |- context [PrimFloat.leb _ _] => rewrite leb_key
         end;
  repeat match goal with
         | x : number |- _ =>
             match goal with
             | |- context [numberKey x] => idtac
             | _ : context [numberKey x] |- _ => idtac
             end;
             let a := fresh "a" in let b := fresh "b" in let c := fresh "c" in
             destruct (numberKey x) as [[[a b] c]|]
         end;
  repeat match goal with
         | |- context [numberKey ?c] =>
             let k := eval vm_compute in (numberKey c) in
             change (numberKey c) with k
         | H : context [numberKey ?c] |- _ =>
             let k := eval vm_compute in (numberKey c) in
             change (numberKey c) with k in H
         end;
  cbv beta iota in *;
  try discriminate; try reflexivity;
  rewrite ?keyLtb_true, ?keyLeb_true, ?keyLtb_false, ?keyLeb_false,
    ?keyEqb_true, ?keyEqb_false in *;
  try lia.

Section OrderTests.

Local Open Scope float_scope.

Lemma ltb_trans (x y z : number) :
  (x <? y) = true -> (y <? z) = true -> (x <? z) = true.
Proof. intros H1 H2. float_order. Qed.

Lemma leb_trans (x y z : number) :
  (x <=? y) = true -> (y <=? z) = true -> (x <=? z) = true.
Proof. intros H1 H2. float_order. Qed.

Lemma leb_total (x y : number) :
  isNaN x = false -> isNaN y = false -> (x <=? y) = true \/ (y <? x) = true.
Proof.
  intros Hx Hy. destruct (x <=? y) eqn:E; [now left | right]. float_order.
Qed.

Lemma above_2005_not_below_2000 (y : number) :
  (2005 <? y) = true -> (y <? 2000) = false.
Proof. intros H. float_order. Qed.

End OrderTests.

(* ===================================================================== *)
(** ** Rounding never gives NaN *)
(* ===================================================================== *)

Section NotNaN.

Local Open Scope Z_scope.

Lemma shr_1_nonneg (mrs : shr_record) : 0 <= shr_m mrs -> 0 <= shr_m (shr_1 mrs).
Proof.
  destruct mrs as [m r s]. simpl. destruct m as [|[p|p|]|[p|p|]]; simpl; lia.
Qed.

Lemma iter_shr_1_nonneg (p : positive) (mrs : shr_record) :
  0 <= shr_m mrs -> 0 <= shr_m (SpecFloat.iter_pos shr_1 p mrs).
Proof.
  revert mrs. induction p as [p IH|p IH|]; intros mrs H; simpl.
  - apply IH, IH. now apply shr_1_nonneg.
  - now apply IH, IH.
  - now apply shr_1_nonneg.
Qed.

Lemma shr_fexp_nonneg (m e : Z) (l : location) :
  0 <= m -> 0 <= shr_m (fst (shr_fexp prec emax m e l)).
Proof.
  intros H. unfold shr_fexp, shr.
  assert (R : 0 <= shr_m (shr_record_of_loc m l)).
  { destruct l as [|[]]; exact H. }
  destruct (fexp prec emax (Zdigits2 m + e) - e); simpl; try exact R.
  now apply iter_shr_1_nonneg.
Qed.

Lemma binary_round_aux_not_nan (sx : bool) (mx ex : Z) (lx : location) :
  0 <= mx -> binary_round_aux prec emax sx mx ex lx <> S754_nan.
Proof.
  intros H. unfold binary_round_aux.
  pose proof (shr_fexp_nonneg mx ex lx H) as H1.
  destruct (shr_fexp prec emax mx ex lx) as [mrs' e']. simpl in H1.
  assert (H2 : 0 <= round_nearest_even (shr_m mrs') (loc_of_shr_record mrs')).
  { unfold round_nearest_even.
    destruct (loc_of_shr_record mrs') as [|[]]; try exact H1;
      try destruct (Z.even (shr_m mrs')); lia. }
  pose proof (shr_fexp_nonneg _ e' loc_Exact H2) as H3.
  destruct (shr_fexp prec emax _ e' loc_Exact) as [mrs'' e'']. simpl in H3.
  destruct (shr_m mrs'') as [|m|m]; try discriminate; try lia.
  destruct (e'' <=? emax - prec); discriminate.
Qed.

Lemma binary_round_not_nan (sx : bool) (mx : positive) (ex : Z) :
  binary_round prec emax sx mx ex <> S754_nan.
Proof.
  unfold binary_round. destruct (shl_align mx ex _) as [mz ez].
  apply binary_round_aux_not_nan. lia.
Qed.

Lemma binary_normalize_not_nan (m e : Z) (szero : bool) :
  binary_normalize prec emax m e szero <> S754_nan.
Proof.
  destruct m; simpl; try discriminate; apply binary_round_not_nan.
Qed.

Lemma SFdiv_finite_not_nan (sx sy : bool) (mx my : positive) (ex ey : Z) :
  SFdiv prec emax (S754_finite sx mx ex) (S754_finite sy my ey) <> S754_nan.
Proof.
  unfold SFdiv, SFdiv_core_binary.
  set (s := _ - _ - _).
  set (m' := match s with Z.pos _ => Z.shiftl (Z.pos mx) s | 0 => Z.pos mx | Z.neg _ => 0 end).
  assert (Hm : 0 <= m').
  { unfold m'. destruct s; try lia. apply Z.shiftl_nonneg. lia. }
  pose proof (Z.div_pos m' (Z.pos my) Hm eq_refl) as Hq.
  unfold Z.div in Hq. destruct (Z.div_eucl m' (Z.pos my)) as [q r].
  apply binary_round_aux_not_nan. exact Hq.
Qed.

Lemma SFkey_not_nan (f : spec_float) : f <> S754_nan -> SFkey f <> None.
Proof. destruct f as [s|s| |s m e]; try destruct s; simpl; congruence. Qed.

Lemma isNaN_Prim2SF (x : number) : Prim2SF x <> S754_nan -> isNaN x = false.
Proof.
  intros H. rewrite isNaN_key. unfold numberKey.
  destruct (SFkey (Prim2SF x)) eqn:E; [reflexivity|].
  now apply SFkey_not_nan in H.
Qed.

(** The number of a binary64 value other than NaN is not NaN. *)
Lemma SF2Prim_not_nan (f : spec_float) : f <> S754_nan -> isNaN (SF2Prim f) = false.
Proof.
  intros H. destruct f as [s|s| |s m e]; try destruct s; try reflexivity;
    try contradiction; apply isNaN_Prim2SF; unfold SF2Prim;
    rewrite ?opp_spec, Z_ldexp_spec, of_uint63_spec;
    match goal with
    | |- context [binary_normalize prec emax ?z 0 false] =>
        pose proof (binary_normalize_not_nan z 0 false) as B;
        destruct (binary_normalize prec emax z 0 false) as [s'|s'| |s' m' e']
    end; simpl; try discriminate; try contradiction;
    pose proof (binary_round_not_nan s' m' (e' + e)) as R;
    destruct (binary_round prec emax s' m' (e' + e)); simpl; congruence.
Qed.

Lemma roundDecimal_not_nan (neg : bool) (m : N) (e10 : Z) :
  roundDecimal neg m e10 <> S754_nan.
Proof.
  unfold roundDecimal, roundRatio. destruct m; [discriminate|].
  destruct e10; apply SFdiv_finite_not_nan.
Qed.

Lemma Math_round_not_nan (x : number) : isNaN x = false -> isNaN (Math_round x) = false.
Proof.
  intros H. unfold Math_round.
  destruct (Prim2SF x) as [s|s| |s m [|e|e]]; try exact H.
  apply SF2Prim_not_nan, binary_normalize_not_nan.
Qed.

End NotNaN.


(* ===================================================================== *)
(** ** The mappings of SCORE_MAPPINGS: buckets and bounds *)
(* ===================================================================== *)

Ltac by_cases :=
  repeat match goal with
         | |- context [if ?b then _ else _] => destruct b eqn:?
         end.

Ltac bounded_result :=
  first [ left; reflexivity
        | right; eexists; split; [reflexivity | split; reflexivity] ].

Section MappingBuckets.

Import JsString SCORE_MAPPINGS.
Local Open Scope float_scope.

Lemma passesMissingTests_true (v : JsValue) :
  passesMissingTests v = true ->
  isAbsent v = false /\ isSentinel (trim (ToString v)) = false.
Proof.
  unfold passesMissingTests. rewrite andb_true_iff, !negb_true_iff. tauto.
Qed.

(** A number equal to 0 is a zero of either sign. *)
Lemma eqb_zero (x : number) :
  (x =? 0) = true -> exists s, Prim2SF x = S754_zero s.
Proof.
  rewrite FloatAxioms.eqb_spec. change (Prim2SF 0) with (S754_zero false).
  unfold SFeqb. destruct (Prim2SF x) as [s|s| |s m e]; simpl;
    try discriminate; try (destruct s; discriminate). now exists s.
Qed.

(** A value that is [=== 0] reads as 0. *)
Lemma isZero_parse (v : JsValue) :
  isZero v = true -> parseFloat v = 0 /\ parseInt v = 0.
Proof.
  destruct v as [| | b | x | s]; try discriminate. simpl. intros H.
  destruct (eqb_zero x H) as [s E].
  unfold parseFloat, parseInt, ToString, JsNumber.toString. rewrite E.
  split; vm_compute; reflexivity.
Qed.

(** X1: whatever the value, a mapping other than [thermalOptimization]
    returns null or a number in its range: 1 to 3 for [cod] and
    [capacityFactor], 0 to 3 for the others. *)
Theorem mappings_bounded (v : JsValue) :
  nullOrWithin 1 3 (cod v) /\ nullOrWithin 1 3 (capacityFactor v)
  /\ nullOrWithin 0 3 (market v) /\ nullOrWithin 0 3 (transactability v)
  /\ nullOrWithin 0 3 (environmental v) /\ nullOrWithin 0 3 (redevMarket v)
  /\ nullOrWithin 0 3 (infra v) /\ nullOrWithin 0 3 (ix v).
Proof.
  assert (I : nullOrWithin 0 3 (integerRating v)).
  { unfold integerRating. cbv zeta. by_cases; try bounded_result.
    right. eexists. split; [reflexivity|]. now apply clamp_range. }
  assert (C : nullOrWithin 0 3 (continuousRating v)).
  { unfold continuousRating. cbv zeta. by_cases; bounded_result. }
  split_conj; try exact I; try exact C.
  - unfold cod. cbv zeta. by_cases; bounded_result.
  - unfold capacityFactor. cbv zeta. by_cases; bounded_result.
  - unfold market. cbv zeta. by_cases; bounded_result.
  - unfold transactability. cbv zeta.
    destruct (isAbsent v); [bounded_result|].
    destruct v as [| | b | x | s]; try (by_cases; bounded_result);
      (destruct (isNaN (parseFloat _)) eqn:E; [bounded_result|]);
      right; eexists; (split; [reflexivity|]);
      apply clamp_range, Math_round_not_nan, E.
Qed.

(** X2: [thermalOptimization] never returns null: whatever the value, the
    result is a number between 0 and 2. *)
Theorem thermalOptimization_bounded (v : JsValue) :
  numberWithin 0 2 (thermalOptimization v).
Proof.
  unfold thermalOptimization. cbv zeta.
  assert (K : forall r, numberWithin 0 2 (JNum r) ->
              (r = 0 \/ r = 1 \/ r = 2) \/ True) by auto.
  destruct v as [| | b | x | s];
    by_cases; try (eexists; split; [reflexivity | split; reflexivity]);
    match goal with
    | H : (_ && _ && _)%bool = true |- _ =>
        apply andb_true_iff in H; destruct H as [H H2];
        apply andb_true_iff in H; destruct H as [_ H1];
        eexists; split; [reflexivity | split; assumption]
    end.
Qed.

(** X3: a value that passes the tests for missing values and reads as a
    year scores 3 before 2000, 2 from 2000 to 2005 and 1 after 2005; [cod]
    returns null exactly when the value fails the tests or does not read as
    a number. *)
Theorem cod_buckets (year : JsValue) :
  (cod year = JNull
   <-> passesMissingTests year = false \/ isNaN (parseInt year) = true)
  /\ (passesMissingTests year = true ->
      ((parseInt year <? 2000) = true -> cod year = JNum 3)
      /\ ((2000 <=? parseInt year) = true -> (parseInt year <=? 2005) = true ->
          cod year = JNum 2)
      /\ ((2005 <? parseInt year) = true -> cod year = JNum 1)).
Proof.
  unfold cod, passesMissingTests. cbv zeta.
  set (p := parseInt year). clearbody p.
  destruct (isAbsent year); simpl.
  { split; [split; auto | discriminate]. }
  destruct (isSentinel (trim (ToString year))); simpl.
  { split; [split; auto | discriminate]. }
  split.
  - destruct (isNaN p) eqn:N; [split; auto|].
    split; [by_cases; discriminate | intros [H | H]; discriminate H].
  - intros _. split_conj.
    + intros H. assert (N : isNaN p = false) by float_order.
      now rewrite N, H.
    + intros H1 H2. assert (N : isNaN p = false) by float_order.
      assert (L : (p <? 2000) = false) by float_order.
      now rewrite N, L, H2.
    + intros H. assert (N : isNaN p = false) by float_order.
      assert (L : (p <? 2000) = false) by float_order.
      assert (L' : (p <=? 2005) = false) by float_order.
      now rewrite N, L, L'.
Qed.

Lemma cod_buckets_witness :
  cod (JStr "1987") = JNum 3 /\ cod (JNum 2005) = JNum 2
  /\ cod (JStr " 2012-06-30") = JNum 1.
Proof.
  split_conj.
  - apply (proj1 (proj2 (cod_buckets (JStr "1987")) eq_refl)).
    vm_compute. reflexivity.
  - apply (proj1 (proj2 (proj2 (cod_buckets (JNum 2005)) eq_refl)));
      vm_compute; reflexivity.
  - apply (proj2 (proj2 (proj2 (cod_buckets (JStr " 2012-06-30")) eq_refl))).
    vm_compute. reflexivity.
Defined.

(** [cod] never scores a later year higher than an earlier one. *)
Lemma cod_antitone (y1 y2 : JsValue) (r1 r2 : number) :
  cod y1 = JNum r1 -> cod y2 = JNum r2 ->
  (parseInt y1 <=? parseInt y2) = true -> (r2 <=? r1) = true.
Proof.
  unfold cod. cbv zeta.
  set (p1 := parseInt y1). set (p2 := parseInt y2). clearbody p1 p2.
  intros H1 H2 L.
  destruct (isAbsent y1); [discriminate|].
  destruct (isSentinel (trim (ToString y1))); [discriminate|].
  destruct (isAbsent y2); [discriminate|].
  destruct (isSentinel (trim (ToString y2))); [discriminate|].
  destruct (isNaN p1) eqn:N1; [discriminate|].
  destruct (isNaN p2) eqn:N2; [discriminate|].
  destruct (p1 <? 2000) eqn:A1; [|destruct (p1 <=? 2005) eqn:B1];
    (destruct (p2 <? 2000) eqn:A2; [|destruct (p2 <=? 2005) eqn:B2]);
    injection H1 as <-; injection H2 as <-; try reflexivity; float_order.
Qed.

(** X4: a capacity factor that passes the tests for missing values and
    reads as a number scores 3 below 0.1, 2 from 0.1 to 0.25 and 1 above
    0.25; [capacityFactor] returns null exactly when the value fails the
    tests or does not read as a number. *)
Theorem capacityFactor_buckets (cf : JsValue) :
  (capacityFactor cf = JNull
   <-> passesMissingTests cf = false \/ isNaN (parseFloat cf) = true)
  /\ (passesMissingTests cf = true ->
      ((parseFloat cf <? 0.1) = true -> capacityFactor cf = JNum 3)
      /\ ((0.1 <=? parseFloat cf) = true -> (parseFloat cf <=? 0.25) = true ->
          capacityFactor cf = JNum 2)
      /\ ((0.25 <? parseFloat cf) = true -> capacityFactor cf = JNum 1)).
Proof.
  unfold capacityFactor, passesMissingTests. cbv zeta.
  set (p := parseFloat cf). clearbody p.
  destruct (isAbsent cf); simpl.
  { split; [split; auto | discriminate]. }
  destruct (isSentinel (trim (ToString cf))); simpl.
  { split; [split; auto | discriminate]. }
  split.
  - destruct (isNaN p) eqn:N; [split; auto|].
    split; [by_cases; discriminate | intros [H | H]; discriminate H].
  - intros _. split_conj.
    + intros H. assert (N : isNaN p = false) by float_order.
      now rewrite N, H.
    + intros H1 H2. assert (N : isNaN p = false) by float_order.
      assert (L : (p <? 0.1) = false) by float_order.
      now rewrite N, L, H2.
    + intros H. assert (N : isNaN p = false) by float_order.
      assert (L : (p <? 0.1) = false) by float_order.
      assert (L' : (p <=? 0.25) = false) by float_order.
      now rewrite N, L, L'.
Qed.

Lemma capacityFactor_buckets_witness :
  capacityFactor (JNum 0.05) = JNum 3 /\ capacityFactor (JStr "0.25") = JNum 2
  /\ capacityFactor (JStr "0.62") = JNum 1.
Proof.
  split_conj.
  - apply (proj1 (proj2 (capacityFactor_buckets (JNum 0.05)) eq_refl)).
    vm_compute. reflexivity.
  - apply (proj1 (proj2 (proj2 (capacityFactor_buckets (JStr "0.25")) eq_refl)));
      vm_compute; reflexivity.
  - apply (proj2 (proj2 (proj2 (capacityFactor_buckets (JStr "0.62")) eq_refl))).
    vm_compute. reflexivity.
Defined.

Lemma capacityFactor_antitone (v1 v2 : JsValue) (r1 r2 : number) :
  capacityFactor v1 = JNum r1 -> capacityFactor v2 = JNum r2 ->
  (parseFloat v1 <=? parseFloat v2) = true -> (r2 <=? r1) = true.
Proof.
  unfold capacityFactor. cbv zeta.
  set (p1 := parseFloat v1). set (p2 := parseFloat v2). clearbody p1 p2.
  intros H1 H2 L.
  destruct (isAbsent v1); [discriminate|].
  destruct (isSentinel (trim (ToString v1))); [discriminate|].
  destruct (isAbsent v2); [discriminate|].
  destruct (isSentinel (trim (ToString v2))); [discriminate|].
  destruct (isNaN p1) eqn:N1; [discriminate|].
  destruct (isNaN p2) eqn:N2; [discriminate|].
  destruct (p1 <? 0.1) eqn:A1; [|destruct (p1 <=? 0.25) eqn:B1];
    (destruct (p2 <? 0.1) eqn:A2; [|destruct (p2 <=? 0.25) eqn:B2]);
    injection H1 as <-; injection H2 as <-; try reflexivity; float_order.
Qed.

(** The rating of [infra] and [ix] as a function of the number read. *)
Lemma continuousRating_cases (v : JsValue) (r : number) :
  continuousRating v = JNum r ->
  isNaN (parseFloat v) = false
  /\ ((r = 3 /\ (2.5 <=? parseFloat v) = true)
      \/ (r = 2 /\ (1.5 <=? parseFloat v) = true /\ (parseFloat v <? 2.5) = true)
      \/ (r = 1 /\ (0.5 <=? parseFloat v) = true /\ (parseFloat v <? 1.5) = true)
      \/ (r = 0 /\ (parseFloat v <? 0.5) = true)).
Proof.
  unfold continuousRating. cbv zeta. intros H.
  destruct (isAbsent v); [discriminate|].
  destruct (isZero v) eqn:Z.
  { destruct (isZero_parse v Z) as [-> _]. injection H as <-.
    split; [reflexivity|]. right. right. right. split; reflexivity. }
  destruct (isSentinel (trim (ToString v))); [discriminate|].
  set (p := parseFloat v) in *. clearbody p.
  destruct (isNaN p) eqn:N; [discriminate|]. split; [reflexivity|].
  destruct (2.5 <=? p) eqn:A; [injection H as <-; auto|].
  destruct (1.5 <=? p) eqn:B.
  { injection H as <-. right. left. split_conj; auto. float_order. }
  destruct (0.5 <=? p) eqn:C.
  { injection H as <-. right. right. left. split_conj; auto. float_order. }
  injection H as <-. right. right. right. split; [reflexivity | float_order].
Qed.

(** X5: for [infra] and [ix], a value that reads as a number scores 3 from
    2.5, 2 from 1.5, 1 from 0.5 and 0 below, the value 0 itself included;
    null is returned exactly when the value is not 0 and fails the tests for
    missing values or does not read as a number. *)
Theorem continuousRating_buckets (v : JsValue) :
  infra v = continuousRating v /\ ix v = continuousRating v
  /\ (continuousRating v = JNull
      <-> isZero v = false
          /\ (passesMissingTests v = false \/ isNaN (parseFloat v) = true))
  /\ (passesMissingTests v = true -> isNaN (parseFloat v) = false ->
      ((2.5 <=? parseFloat v) = true -> continuousRating v = JNum 3)
      /\ ((1.5 <=? parseFloat v) = true -> (parseFloat v <? 2.5) = true ->
          continuousRating v = JNum 2)
      /\ ((0.5 <=? parseFloat v) = true -> (parseFloat v <? 1.5) = true ->
          continuousRating v = JNum 1)
      /\ ((parseFloat v <? 0.5) = true -> continuousRating v = JNum 0)).
Proof.
  split; [reflexivity|]. split; [reflexivity|].
  unfold continuousRating, passesMissingTests. cbv zeta.
  destruct (isZero v) eqn:Z.
  { destruct (isZero_parse v Z) as [-> _].
    assert (A : isAbsent v = false) by (destruct v; try discriminate; reflexivity).
    rewrite A. split.
    - split; [discriminate | intros [H _]; discriminate H].
    - intros _ _. split_conj; intros; try reflexivity; float_order. }
  set (p := parseFloat v). clearbody p.
  destruct (isAbsent v); simpl.
  { split; [split; auto | discriminate]. }
  destruct (isSentinel (trim (ToString v))); simpl.
  { split; [split; auto | discriminate]. }
  split.
  - destruct (isNaN p) eqn:N; [split; auto|].
    split; [by_cases; discriminate | intros [_ [H | H]]; discriminate H].
  - intros _ N. rewrite N. split_conj.
    + intros H. now rewrite H.
    + intros H1 H2. assert (L : (2.5 <=? p) = false) by float_order.
      now rewrite L, H1.
    + intros H1 H2. assert (L : (2.5 <=? p) = false) by float_order.
      assert (L' : (1.5 <=? p) = false) by float_order.
      now rewrite L, L', H1.
    + intros H. assert (L : (2.5 <=? p) = false) by float_order.
      assert (L' : (1.5 <=? p) = false) by float_order.
      assert (L'' : (0.5 <=? p) = false) by float_order.
      now rewrite L, L', L''.
Qed.

Lemma continuousRating_buckets_witness :
  continuousRating (JStr "2.5") = JNum 3 /\ continuousRating (JNum 1.75) = JNum 2
  /\ continuousRating (JStr " 0.5") = JNum 1 /\ continuousRating (JNum 0.49) = JNum 0.
Proof.
  split_conj.
  - pose proof (proj2 (proj2 (proj2 (continuousRating_buckets (JStr "2.5"))))
                  eq_refl eq_refl) as D.
    apply (proj1 D). vm_compute. reflexivity.
  - pose proof (proj2 (proj2 (proj2 (continuousRating_buckets (JNum 1.75))))
                  eq_refl eq_refl) as D.
    apply (proj1 (proj2 D)); vm_compute; reflexivity.
  - pose proof (proj2 (proj2 (proj2 (continuousRating_buckets (JStr " 0.5"))))
                  eq_refl eq_refl) as D.
    apply (proj1 (proj2 (proj2 D))); vm_compute; reflexivity.
  - pose proof (proj2 (proj2 (proj2 (continuousRating_buckets (JNum 0.49))))
                  eq_refl eq_refl) as D.
    apply (proj2 (proj2 (proj2 D))). vm_compute. reflexivity.
Defined.

Lemma continuousRating_monotone (v1 v2 : JsValue) (r1 r2 : number) :
  continuousRating v1 = JNum r1 -> continuousRating v2 = JNum r2 ->
  (parseFloat v1 <=? parseFloat v2) = true -> (r1 <=? r2) = true.
Proof.
  intros H1 H2 L.
  destruct (continuousRating_cases v1 r1 H1) as [N1 C1].
  destruct (continuousRating_cases v2 r2 H2) as [N2 C2].
  set (p1 := parseFloat v1) in *. set (p2 := parseFloat v2) in *.
  clearbody p1 p2. clear H1 H2.
  destruct C1 as [[-> A1] | [[-> [A1 B1]] | [[-> [A1 B1]] | [-> A1]]]];
    destruct C2 as [[-> A2] | [[-> [A2 B2]] | [[-> [A2 B2]] | [-> A2]]]];
    try reflexivity; float_order.
Qed.

(** Clamping a number to the range from 0 to 3, by cases. *)
Lemma clamp_cases (s : number) :
  isNaN s = false ->
  (Math_min (Math_max s 0) 3 = 3 /\ (3 <=? s) = true)
  \/ (Math_min (Math_max s 0) 3 = s /\ (0 <=? s) = true /\ (s <=? 3) = true)
  \/ (Math_min (Math_max s 0) 3 = 0 /\ (s <=? 0) = true).
Proof.
  intros N.
  assert (M : (Math_max s 0 = 0 /\ (s <=? 0) = true)
              \/ (Math_max s 0 = s /\ (0 <=? s) = true)).
  { unfold Math_max. rewrite N. change (isNaN 0) with false. simpl orb. cbv iota.
    destruct (s <? 0) eqn:A; [left; split; [reflexivity | float_order]|].
    destruct (0 <? s) eqn:B; [right; split; [reflexivity | float_order]|].
    destruct (get_sign s); [left | right]; (split; [reflexivity | float_order]). }
  destruct M as [[-> L] | [-> L]].
  - right. right. split; [vm_compute; reflexivity | exact L].
  - unfold Math_min. rewrite N. change (isNaN 3) with false. simpl orb. cbv iota.
    destruct (s <? 3) eqn:A.
    { right. left. split_conj; auto. float_order. }
    destruct (3 <? s) eqn:B.
    { left. split; [reflexivity | float_order]. }
    destruct (get_sign s).
    + right. left. split_conj; auto. float_order.
    + left. split; [reflexivity | float_order].
Qed.

(** The rating of [environmental] and [redevMarket] as a function of the
    number read. *)
Lemma integerRating_cases (v : JsValue) (r : number) :
  integerRating v = JNum r ->
  isNaN (parseInt v) = false
  /\ ((r = 3 /\ (3 <=? parseInt v) = true)
      \/ (r = parseInt v /\ (0 <=? parseInt v) = true /\ (parseInt v <=? 3) = true)
      \/ (r = 0 /\ (parseInt v <=? 0) = true)).
Proof.
  unfold integerRating. cbv zeta. intros H.
  destruct (isAbsent v); [discriminate|].
  destruct (isZero v) eqn:Z.
  { destruct (isZero_parse v Z) as [_ ->]. injection H as <-.
    split; [reflexivity|]. right. right. split; reflexivity. }
  destruct (isSentinel (trim (ToString v))); [discriminate|].
  set (p := parseInt v) in *. clearbody p.
  destruct (isNaN p) eqn:N; [discriminate|]. split; [reflexivity|].
  injection H as <-. exact (clamp_cases p N).
Qed.

(** X6: for [environmental] and [redevMarket], a value that reads as an
    integer keeps it when it lies between 0 and 3, scores 3 above 3 and 0
    below 0 (results up to the sign of zero). *)
Theorem integerRating_clamp (v : JsValue) :
  environmental v = integerRating v /\ redevMarket v = integerRating v
  /\ (passesMissingTests v = true -> isNaN (parseInt v) = false ->
      ((0 <=? parseInt v) = true -> (parseInt v <=? 3) = true ->
         isNumber (integerRating v) (parseInt v))
      /\ ((3 <=? parseInt v) = true -> isNumber (integerRating v) 3)
      /\ ((parseInt v <=? 0) = true -> isNumber (integerRating v) 0)).
Proof.
  split; [reflexivity|]. split; [reflexivity|]. intros P N.
  apply passesMissingTests_true in P. destruct P as [A S].
  assert (E : exists r, integerRating v = JNum r).
  { unfold integerRating. cbv zeta. rewrite A, S, N.
    destruct (isZero v); eexists; reflexivity. }
  destruct E as [r E]. rewrite E.
  destruct (integerRating_cases v r E) as [_ C].
  set (p := parseInt v) in *. clearbody p. unfold isNumber.
  split_conj; intros; exists r; (split; [reflexivity|]);
    destruct C as [[-> C] | [[-> [C C']] | [-> C]]]; float_order.
Qed.

Lemma integerRating_clamp_witness :
  isNumber (integerRating (JStr "2")) (parseInt (JStr "2"))
  /\ isNumber (integerRating (JNum 7)) 3 /\ isNumber (integerRating (JStr "-4")) 0.
Proof.
  split_conj.
  - pose proof (proj2 (proj2 (integerRating_clamp (JStr "2"))) eq_refl eq_refl) as D.
    apply (proj1 D); vm_compute; reflexivity.
  - pose proof (proj2 (proj2 (integerRating_clamp (JNum 7))) eq_refl eq_refl) as D.
    apply (proj1 (proj2 D)). vm_compute. reflexivity.
  - pose proof (proj2 (proj2 (integerRating_clamp (JStr "-4"))) eq_refl eq_refl) as D.
    apply (proj2 (proj2 D)). vm_compute. reflexivity.
Defined.

Lemma integerRating_monotone (v1 v2 : JsValue) (r1 r2 : number) :
  integerRating v1 = JNum r1 -> integerRating v2 = JNum r2 ->
  (parseInt v1 <=? parseInt v2) = true -> (r1 <=? r2) = true.
Proof.
  intros H1 H2 L.
  destruct (integerRating_cases v1 r1 H1) as [N1 C1].
  destruct (integerRating_cases v2 r2 H2) as [N2 C2].
  set (p1 := parseInt v1) in *. set (p2 := parseInt v2) in *.
  clearbody p1 p2. clear H1 H2.
  destruct C1 as [[-> A1] | [[-> [A1 B1]] | [-> A1]]];
    destruct C2 as [[-> A2] | [[-> [A2 B2]] | [-> A2]]];
    try reflexivity; float_order.
Qed.

(** X7: the mappings keep the order of the numbers they read: [cod] and
    [capacityFactor] never score a larger number higher, [infra], [ix],
    [environmental] and [redevMarket] never score it lower. *)
Theorem mappings_monotone (v1 v2 : JsValue) (r1 r2 : number) :
  (cod v1 = JNum r1 -> cod v2 = JNum r2 ->
   (parseInt v1 <=? parseInt v2) = true -> (r2 <=? r1) = true)
  /\ (capacityFactor v1 = JNum r1 -> capacityFactor v2 = JNum r2 ->
      (parseFloat v1 <=? parseFloat v2) = true -> (r2 <=? r1) = true)
  /\ (infra v1 = JNum r1 -> infra v2 = JNum r2 ->
      (parseFloat v1 <=? parseFloat v2) = true -> (r1 <=? r2) = true)
  /\ (ix v1 = JNum r1 -> ix v2 = JNum r2 ->
      (parseFloat v1 <=? parseFloat v2) = true -> (r1 <=? r2) = true)
  /\ (environmental v1 = JNum r1 -> environmental v2 = JNum r2 ->
      (parseInt v1 <=? parseInt v2) = true -> (r1 <=? r2) = true)
  /\ (redevMarket v1 = JNum r1 -> redevMarket v2 = JNum r2 ->
      (parseInt v1 <=? parseInt v2) = true -> (r1 <=? r2) = true).
Proof.
  split_conj.
  - apply cod_antitone.
  - apply capacityFactor_antitone.
  - apply continuousRating_monotone.
  - apply continuousRating_monotone.
  - apply integerRating_monotone.
  - apply integerRating_monotone.
Qed.

Lemma mappings_monotone_witness : (1 <=? 3) = true /\ (1 <=? 3) = true.
Proof.
  split.
  - apply (proj1 (mappings_monotone (JStr "1987") (JStr "2012") 3 1));
      vm_compute; reflexivity.
  - apply (proj1 (proj2 (proj2 (mappings_monotone (JStr "0.6") (JNum 2.5) 1 3))));
      vm_compute; reflexivity.
Defined.

Lemma arrayIncludes_In (a : list string) (s : string) :
  arrayIncludes a s = true <-> In s a.
Proof.
  unfold arrayIncludes. rewrite existsb_exists. split.
  - intros (x & Hx & E). apply String.eqb_eq in E. now subst x.
  - intros H. exists s. split; [exact H | apply String.eqb_refl].
Qed.

(** X8: [market] compares the trimmed text of a value that passes the
    tests for missing values with four lists, letter case included: a
    premium market scores 3, a good one 2, a neutral one 1, a poor one 0,
    and any other text scores 1, as a neutral market does. *)
Theorem market_tiers (iso : JsValue) :
  passesMissingTests iso = true ->
  (In (trim (ToString iso)) premiumMarkets -> market iso = JNum 3)
  /\ (In (trim (ToString iso)) goodMarkets -> market iso = JNum 2)
  /\ (In (trim (ToString iso)) neutralMarkets -> market iso = JNum 1)
  /\ (In (trim (ToString iso)) poorMarkets -> market iso = JNum 0)
  /\ (~ In (trim (ToString iso)) (premiumMarkets ++ goodMarkets ++ poorMarkets) ->
      market iso = JNum 1).
Proof.
  intros P. apply passesMissingTests_true in P. destruct P as [A S].
  unfold market. cbv zeta. rewrite A, S.
  set (t := trim (ToString iso)). clearbody t.
  split_conj.
  - intros H. apply arrayIncludes_In in H. now rewrite H.
  - intros H. destruct H as [<- | [<- | []]]; reflexivity.
  - intros H. destruct H as [<- | [<- | []]]; reflexivity.
  - intros H. destruct H as [<- | [<- | [<- | []]]]; reflexivity.
  - intros H. rewrite !in_app_iff in H.
    destruct (arrayIncludes premiumMarkets t) eqn:E1;
      [apply arrayIncludes_In in E1; tauto|].
    destruct (arrayIncludes goodMarkets t) eqn:E2;
      [apply arrayIncludes_In in E2; tauto|].
    destruct (arrayIncludes neutralMarkets t); [reflexivity|].
    destruct (arrayIncludes poorMarkets t) eqn:E4;
      [apply arrayIncludes_In in E4; tauto | reflexivity].
Qed.

Lemma market_tiers_witness :
  market (JStr " PJM ") = JNum 3 /\ market (JStr "SERC") = JNum 2
  /\ market (JStr "ERCOT") = JNum 0 /\ market (JStr "pjm") = JNum 1.
Proof.
  split_conj.
  - apply (proj1 (market_tiers (JStr " PJM ") eq_refl)). vm_compute. tauto.
  - apply (proj1 (proj2 (market_tiers (JStr "SERC") eq_refl))). vm_compute. tauto.
  - apply (proj1 (proj2 (proj2 (proj2 (market_tiers (JStr "ERCOT") eq_refl))))).
    vm_compute. tauto.
  - apply (proj2 (proj2 (proj2 (proj2 (market_tiers (JStr "pjm") eq_refl))))).
    vm_compute. intuition discriminate.
Defined.

End MappingBuckets.

(* ===================================================================== *)
(** ** Composite scores: sources, labels and guards *)
(* ===================================================================== *)

Section ScoreSources.

Import JsString ScoreCalculations.
Local Open Scope float_scope.

Lemma prop_insert_eq (o : Object) (k : string) (v : JsValue) :
  prop (<[k := v]> o) k = v.
Proof. unfold prop. now rewrite lookup_insert_eq. Qed.

Lemma prop_insert_ne (o : Object) (k k' : string) (v : JsValue) :
  k <> k' -> prop (<[k := v]> o) k' = prop o k'.
Proof. intros H. unfold prop. now rewrite lookup_insert_ne. Qed.

Lemma usableSource_true (v : JsValue) :
  usableSource v = true ->
  (negb (isUndefined v) && negb (isNull v) && negb (isEmptyString v))%bool = true
  /\ isNaN (parseFloat v) = false.
Proof.
  unfold usableSource. rewrite andb_true_iff, negb_true_iff. tauto.
Qed.

Lemma getScore_usable (v : JsValue) (rest : list JsValue) (d : number) :
  usableSource v = true -> getScore (v :: rest) d = parseFloat v.
Proof.
  intros H. destruct (usableSource_true v H) as [A N]. simpl.
  now rewrite A, N.
Qed.

Lemma getScore_unusable (v : JsValue) (rest : list JsValue) (d : number) :
  usableSource v = false -> getScore (v :: rest) d = getScore rest d.
Proof.
  unfold usableSource. intros H. simpl.
  destruct (negb (isUndefined v) && negb (isNull v) && negb (isEmptyString v))%bool;
    [|reflexivity].
  simpl in H. apply negb_false_iff in H. now rewrite H.
Qed.

Lemma getScore_not_nan (sources : list JsValue) (d : number) :
  isNaN d = false -> isNaN (getScore sources d) = false.
Proof.
  intros H. induction sources as [|v rest IH]; [exact H|].
  destruct (usableSource v) eqn:U.
  - rewrite (getScore_usable v rest d U). exact (proj2 (usableSource_true v U)).
  - now rewrite (getScore_unusable v rest d U).
Qed.

Lemma getScore2_getScore (primary secondary : JsValue) (d : number) :
  getScore2 primary secondary d = getScore [primary; secondary] d.
Proof. reflexivity. Qed.

(** X9: [getScore] returns the number read from the first source that is
    not undefined, null or [''] and reads as a number, and the default when
    there is none; it never returns NaN unless the default is NaN. The two
    copies of the helper agree. *)
Theorem getScore_first_usable (d : number) :
  (forall sources, isNaN d = false -> isNaN (getScore sources d) = false)
  /\ (forall sources,
        Forall (fun v => usableSource v = false) sources -> getScore sources d = d)
  /\ (forall before v after,
        Forall (fun v => usableSource v = false) before -> usableSource v = true ->
        getScore (before ++ v :: after) d = parseFloat v)
  /\ (forall primary secondary,
        getScore2 primary secondary d = getScore [primary; secondary] d).
Proof.
  split_conj.
  - intros sources. apply getScore_not_nan.
  - intros sources H. induction H as [|v rest U _ IH]; [reflexivity|].
    now rewrite (getScore_unusable v rest d U).
  - intros before v after H U. induction H as [|w rest W _ IH].
    + apply getScore_usable, U.
    + simpl app. now rewrite (getScore_unusable w _ d W).
  - intros. apply getScore2_getScore.
Qed.

Lemma getScore_first_usable_witness :
  getScore [JNull; JStr "n/a"; JStr "0"; JNum 3] 2 = parseFloat (JStr "0")
  /\ getScore [JUndefined; JStr ""] 2 = 2.
Proof.
  split.
  - apply (proj1 (proj2 (proj2 (getScore_first_usable 2)))
             [JNull; JStr "n/a"] (JStr "0") [JNum 3]).
    + repeat constructor.
    + reflexivity.
  - apply (proj1 (proj2 (getScore_first_usable 2))). repeat constructor.
Defined.

Lemma prop_thermalInputs (c m t o e : JsValue) :
  let data := thermalInputs c m t o e in
  prop data "plant_cod" = c /\ prop data "Plant  COD" = JUndefined
  /\ prop data "Plant COD" = JUndefined
  /\ prop data "markets" = m /\ prop data "Markets" = JUndefined
  /\ prop data "transactability_scores" = t
  /\ prop data "Transactability Scores" = JUndefined
  /\ prop data "thermal_optimization" = o
  /\ prop data "Thermal Optimization" = JUndefined
  /\ prop data "environmental_score" = e
  /\ prop data "Envionmental Score" = JUndefined
  /\ prop data "Environmental Score" = JUndefined.
Proof. vm_compute. split_conj; reflexivity. Qed.

Lemma prop_legacyThermalInputs (c m t o e : JsValue) :
  let data := legacyThermalInputs c m t o e in
  prop data "plant_cod" = JUndefined /\ prop data "Plant  COD" = JUndefined
  /\ prop data "Plant COD" = c
  /\ prop data "markets" = JUndefined /\ prop data "Markets" = m
  /\ prop data "transactability_scores" = JUndefined
  /\ prop data "Transactability Scores" = t
  /\ prop data "thermal_optimization" = JUndefined
  /\ prop data "Thermal Optimization" = o
  /\ prop data "environmental_score" = JUndefined
  /\ prop data "Envionmental Score" = JUndefined
  /\ prop data "Environmental Score" = e.
Proof. vm_compute. split_conj; reflexivity. Qed.

Lemma prop_legacyRedevInputs (market infra ix flag : JsValue) :
  let data := legacyRedevInputs market infra ix flag in
  prop data "market_score" = JUndefined /\ prop data "Market Score" = market
  /\ prop data "infra" = JUndefined /\ prop data "Infra" = infra
  /\ prop data "ix" = JUndefined /\ prop data "IX" = ix
  /\ prop data "co_locate_repower" = JUndefined
  /\ prop data "Co-Locate/Repower" = flag.
Proof. vm_compute. split_conj; reflexivity. Qed.

Lemma getScore_undefined (rest : list JsValue) (d : number) :
  getScore (JUndefined :: rest) d = getScore rest d.
Proof. reflexivity. Qed.

Lemma getScore_last_undefined (v : JsValue) (d : number) :
  getScore [v; JUndefined] d = getScore [v] d
  /\ getScore [v; JUndefined; JUndefined] d = getScore [v] d.
Proof.
  destruct (usableSource v) eqn:U.
  - now rewrite !(getScore_usable v _ d U).
  - now rewrite !(getScore_unusable v _ d U).
Qed.

(** X10: the composite scores read the column labels of the spreadsheet
    when the canonical keys are absent: the same components under the
    labels give the same thermal and redevelopment scores as under the
    keys. *)
Theorem scores_from_legacy_labels :
  (forall c m t o e : JsValue,
      calculateThermalScore (legacyThermalInputs c m t o e)
      = calculateThermalScore (thermalInputs c m t o e))
  /\ (forall market infra ix flag : JsValue,
         calculateRedevelopmentScore (legacyRedevInputs market infra ix flag)
         = calculateRedevelopmentScore (redevInputs market infra ix flag)).
Proof.
  split.
  - intros c m t o e. unfold calculateThermalScore.
    destruct (prop_thermalInputs c m t o e)
      as (-> & -> & -> & -> & -> & -> & -> & -> & -> & -> & -> & ->).
    destruct (prop_legacyThermalInputs c m t o e)
      as (-> & -> & -> & -> & -> & -> & -> & -> & -> & -> & -> & ->).
    rewrite !getScore_undefined.
    rewrite !(proj1 (getScore_last_undefined _ _)),
      !(proj2 (getScore_last_undefined _ _)).
    reflexivity.
  - intros market infra ix flag. unfold calculateRedevelopmentScore.
    destruct (prop_redevInputs market infra ix flag)
      as (-> & -> & -> & -> & -> & -> & -> & ->).
    destruct (prop_legacyRedevInputs market infra ix flag)
      as (-> & -> & -> & -> & -> & -> & -> & ->).
    rewrite !getScore2_getScore, !getScore_undefined,
      !(proj1 (getScore_last_undefined _ _)).
    replace (or (or JUndefined flag) (JStr "")) with (or (or flag JUndefined) (JStr ""))
      by (unfold or; simpl; destruct (ToBoolean flag) eqn:E; simpl; rewrite ?E;
          reflexivity).
    reflexivity.
Qed.

(** X11: a key that holds a usable value hides the labels read after it:
    whatever is stored under the label, the thermal score is the same. *)
Theorem thermal_key_precedence (data : Object) (key label : string) (w : JsValue) :
  In (key, label) thermalLabels -> usableSource (prop data key) = true ->
  calculateThermalScore (<[label := w]> data) = calculateThermalScore data.
Proof.
  intros H U. unfold thermalLabels in H. simpl in H.
  unfold calculateThermalScore.
  destruct (usableSource (prop data "plant_cod")) eqn:V1;
    destruct (usableSource (prop data "environmental_score")) eqn:V2;
    repeat (destruct H as [H | H];
            [injection H as <- <-;
             rewrite ?prop_insert_eq, ?prop_insert_ne by discriminate;
             try congruence;
             rewrite ?(getScore_usable _ _ _ V1), ?(getScore_unusable _ _ _ V1),
               ?(getScore_usable _ _ _ V2), ?(getScore_unusable _ _ _ V2),
               ?(getScore_usable _ _ _ U);
             reflexivity |]);
    destruct H.
Qed.

Lemma thermal_key_precedence_witness :
  calculateThermalScore
    (<["Plant COD" := JNum 1]>
       (thermalInputs (JNum 3) (JNum 2) (JNum 2) (JNum 1) (JNum 2)))
  = calculateThermalScore (thermalInputs (JNum 3) (JNum 2) (JNum 2) (JNum 1) (JNum 2)).
Proof.
  apply (thermal_key_precedence _ "plant_cod" "Plant COD" (JNum 1)).
  - right. left. reflexivity.
  - vm_compute. reflexivity.
Defined.




(** X13: the redevelopment score is 0 as soon as the market, infra or ix
    key holds a value that reads as 0 (the number 0 or a text such as
    "0"), whatever the other components and the flag. *)
Theorem redevelopment_zero_guard (data : Object) (key : string) :
  In key ["market_score"; "infra"; "ix"] ->
  usableSource (prop data key) = true -> (parseFloat (prop data key) =? 0) = true ->
  calculateRedevelopmentScore data = JNum 0.
Proof.
  intros H U Z. unfold calculateRedevelopmentScore. cbv zeta.
  rewrite !getScore2_getScore.
  destruct H as [<- | [<- | [<- | []]]];
    rewrite (getScore_usable _ _ _ U), Z, ?orb_true_r; reflexivity.
Qed.

Lemma redevelopment_zero_guard_witness :
  calculateRedevelopmentScore
    (redevInputs (JNum 3) (JStr "0") (JNum 3) (JStr "Repower")) = JNum 0.
Proof.
  apply (redevelopment_zero_guard _ "infra").
  - right. left. reflexivity.
  - vm_compute. reflexivity.
  - vm_compute. reflexivity.
Defined.

(** X14: only the lower-cased, trimmed text of the co-locate flag counts:
    two texts that are not empty and differ in letter case or in white
    space around them give the same redevelopment score. *)
Theorem repower_flag_insensitive (data : Object) (f f' : string) :
  f <> "" -> f' <> "" -> trim (toLowerCase f) = trim (toLowerCase f') ->
  calculateRedevelopmentScore (<["co_locate_repower" := JStr f]> data)
  = calculateRedevelopmentScore (<["co_locate_repower" := JStr f']> data).
Proof.
  intros N N' E. unfold calculateRedevelopmentScore.
  rewrite ?prop_insert_eq, ?prop_insert_ne by discriminate.
  assert (T : forall g x, g <> "" -> ToString (or (or (JStr g) x) (JStr "")) = g).
  { intros g x Hg. destruct g; [contradiction | reflexivity]. }
  rewrite !T by assumption. rewrite E. reflexivity.
Qed.

Lemma repower_flag_insensitive_witness :
  calculateRedevelopmentScore
    (<["co_locate_repower" := JStr "Repower"]> missingMarketInputs)
  = calculateRedevelopmentScore
      (<["co_locate_repower" := JStr "  REPOWER "]> missingMarketInputs).
Proof.
  apply repower_flag_insensitive; [discriminate | discriminate | reflexivity].
Defined.

Ltac each_of_subScores :=
  repeat match goal with
         | H : In _ subScores |- _ => unfold subScores in H; simpl in H
         | H : _ \/ _ |- _ => destruct H as [H | H]
         | H : False |- _ => destruct H
         | H : _ = ?x |- _ => is_var x; subst x
         end.

(** X15: with its sub-scores present (0 to 3), the thermal score lies
    between 0.05 and 3 and the redevelopment score between 0 and 3; the
    "repower" flag never raises the redevelopment score. *)
Theorem normalized_scores_bounded (c m t o e market infra ix : number)
    (flag : string) :
  In c subScores -> In m subScores -> In t subScores -> In o subScores ->
  In e subScores -> In market subScores -> In infra subScores ->
  In ix subScores ->
  numberWithin 0.05 3
    (calculateThermalScore (thermalInputs (JNum c) (JNum m) (JNum t) (JNum o) (JNum e)))
  /\ numberWithin 0 3
       (calculateRedevelopmentScore
          (redevInputs (JNum market) (JNum infra) (JNum ix) (JStr flag)))
  /\ (forall plain repower,
        calculateRedevelopmentScore
          (redevInputs (JNum market) (JNum infra) (JNum ix) (JStr flag)) = JNum plain ->
        calculateRedevelopmentScore
          (redevInputs (JNum market) (JNum infra) (JNum ix) (JStr "Repower"))
        = JNum repower ->
        (repower <=? plain) = true).
Proof.
  intros Hc Hm Ht Ho He Hk Hi Hx. split_conj.
  - clear Hk Hi Hx. each_of_subScores; vm_compute;
      (eexists; split; [reflexivity | split; reflexivity]).
  - clear Hc Hm Ht Ho He.
    rewrite (calculateRedevelopmentScore_present market infra ix flag Hk Hi Hx).
    destruct (String.eqb _ "repower"); each_of_subScores; vm_compute;
      (eexists; split; [reflexivity | split; reflexivity]).
  - clear Hc Hm Ht Ho He. intros plain repower.
    rewrite (calculateRedevelopmentScore_present market infra ix flag Hk Hi Hx),
      (calculateRedevelopmentScore_present market infra ix "Repower" Hk Hi Hx).
    destruct (String.eqb _ "repower"); each_of_subScores; vm_compute;
      intros H1 H2; injection H1 as <-; injection H2 as <-; reflexivity.
Qed.

Lemma normalized_scores_bounded_witness :
  numberWithin 0.05 3
    (calculateThermalScore (thermalInputs (JNum 3) (JNum 3) (JNum 3) (JNum 2) (JNum 3))).
Proof.
  refine (proj1 (normalized_scores_bounded 3 3 3 2 3 1 1 1 "" _ _ _ _ _ _ _ _));
    unfold subScores; simpl; auto 10.
Defined.

End ScoreSources.

(* ===================================================================== *)
(** ** Fuel score and M&A tier *)
(* ===================================================================== *)

Section BackendFunctions.

Import JsString BackendScores ProjectModel.
Local Open Scope float_scope.

(** X16: [calculateFuelScore] returns 1 exactly when the value is present
    and its lower-cased text contains "gas" or "oil", whatever else it
    contains; it returns null exactly when the value is null, undefined or
    blank, and 0 otherwise. *)
Theorem calculateFuelScore_gas_or_oil (fuel : JsValue) :
  let blank := ((isNull fuel || isUndefined fuel || isEmptyString fuel)
                || String.eqb (toLowerCase (trim (ToString fuel))) "")%bool in
  let gasOrOil := (includes (toLowerCase (trim (ToString fuel))) "gas"
                   || includes (toLowerCase (trim (ToString fuel))) "oil")%bool in
  (calculateFuelScore fuel = JNull <-> blank = true)
  /\ (calculateFuelScore fuel = JNum 1 <-> blank = false /\ gasOrOil = true)
  /\ (calculateFuelScore fuel = JNum 0 <-> blank = false /\ gasOrOil = false).
Proof.
  cbv zeta. unfold calculateFuelScore. cbv zeta.
  destruct (isNull fuel || isUndefined fuel || isEmptyString fuel)%bool; simpl.
  { split_conj; split; try discriminate; auto; intros [H _]; discriminate H. }
  destruct (String.eqb (toLowerCase (trim (ToString fuel))) ""); simpl.
  { split_conj; split; try discriminate; auto; intros [H _]; discriminate H. }
  destruct (includes _ "gas" || includes _ "oil")%bool; simpl.
  - split_conj; split; try discriminate; auto; intros [_ H]; discriminate H.
  - destruct (includes _ "solar" || includes _ "wind" || includes _ "coal"
              || includes _ "bess")%bool;
      split_conj; split; try discriminate; auto; intros [_ H]; discriminate H.
Qed.

Lemma ownProperty_In (map : list (string * N)) (key : string) (id : N) :
  ownProperty map key = Some id -> In (key, id) map.
Proof.
  induction map as [|[k i] rest IH]; [discriminate|]. simpl.
  destruct (String.eqb k key) eqn:E.
  - apply String.eqb_eq in E. intros H. injection H as <-. left. now subst k.
  - intros H. right. now apply IH.
Qed.

(** X17: [handleMaTier] looks at the lower-cased, trimmed text only: two
    texts that are not empty and differ in letter case or in white space
    around them get the same tier. A tier id is returned only for one of
    the six names, every text the function mapped to an id before the fix
    keeps that id, and a falsy value gives null. *)
Theorem handleMaTier_normalizes :
  (forall s s' : string, s <> "" -> s' <> "" ->
      trim (toLowerCase s) = trim (toLowerCase s') ->
      handleMaTier (JStr s) = handleMaTier (JStr s'))
  /\ (forall (v : JsValue) (id : N),
        handleMaTier v = TierId id ->
        In (trim (toLowerCase (ToString v)), id) maTierMap)
  /\ (forall (s : string) (id : N),
        handleMaTierOld (JStr s) = TierId id -> handleMaTier (JStr s) = TierId id)
  /\ (forall v : JsValue, ToBoolean v = false -> handleMaTier v = TierNull).
Proof.
  split_conj.
  - intros s s' N N' E. unfold handleMaTier.
    destruct s; [contradiction|]. destruct s'; [contradiction|].
    simpl ToBoolean. simpl ToString. cbv zeta. simpl negb. cbv iota.
    now rewrite E.
  - intros v id. unfold handleMaTier, lookupTier. cbv zeta.
    destruct (ToBoolean v); cbv beta iota delta [negb]; [|discriminate].
    destruct (ownProperty maTierMap (trim (toLowerCase (ToString v)))) as [i|] eqn:E.
    + intros H. injection H as <-. now apply ownProperty_In.
    + destruct (arrayIncludes _ _); discriminate.
  - intros s id. unfold handleMaTierOld, lookupTier.
    destruct (ToBoolean (JStr s)) eqn:B; cbv beta iota delta [negb]; [|discriminate].
    change (ToString (JStr s)) with s.
    destruct (ownProperty maTierMapOld s) as [i|] eqn:E.
    + intros H. injection H as <-. apply ownProperty_In in E. simpl in E.
      repeat (destruct E as [E | E]; [injection E as <- <-; reflexivity |]).
      destruct E.
    + destruct (arrayIncludes _ _); discriminate.
  - intros v H. unfold handleMaTier. now rewrite H.
Qed.

Lemma handleMaTier_normalizes_witness :
  handleMaTier (JStr "Second Round") = handleMaTier (JStr " SECOND ROUND ")
  /\ handleMaTier (JStr "Owned") = TierId 1
  /\ handleMaTier (JStr "") = TierNull.
Proof.
  split_conj.
  - apply (proj1 handleMaTier_normalizes); [discriminate | discriminate | reflexivity].
  - apply (proj1 (proj2 (proj2 handleMaTier_normalizes))). reflexivity.
  - apply (proj2 (proj2 (proj2 handleMaTier_normalizes))). reflexivity.
Defined.

End BackendFunctions.

(* ===================================================================== *)
(** ** The cap of five POI voltage entries *)
(* ===================================================================== *)

Section PoiVoltageCap.

Import PoiVoltage.
Local Open Scope nat_scope.
Local Open Scope list_scope.

Lemma addNewTransmissionEntry_length (data : list Object) (e : Object) :
  List.length (nextData (addNewTransmissionEntry true data data e))
  = if 5 <=? List.length data then List.length data else S (List.length data).
Proof.
  unfold addNewTransmissionEntry. cbv beta iota delta [negb].
  destruct (5 <=? List.length data); cbn [nextData]; [reflexivity|].
  rewrite List.length_app. cbn [List.length]. lia.
Qed.

(** X18: the add button keeps the cap: starting from at most five entries,
    any number of clicks leaves at most five, exactly as many as were
    added up to five, and the list is accepted by the check of the back
    end; outside edit mode nothing changes. The limit is checked on the
    list the callback has captured: with a captured list that is shorter
    than the current one, a sixth entry is added, which the back end
    refuses. *)
Theorem addNewTransmissionEntry_cap (data entries : list Object) :
  List.length data <= 5 ->
  List.length (addAll true data entries)
  = Nat.min 5 (List.length data + List.length entries)
  /\ enforceMaxEntries (addAll true data entries) = Ok tt
  /\ addAll false data entries = data
  /\ (forall captured e, List.length captured < 5 -> List.length data = 5 ->
        nextData (addNewTransmissionEntry true captured data e) = data ++ [e]
        /\ enforceMaxEntries (data ++ [e])
           = Failed "Maximum of 5 POI voltage entries allowed").
Proof.
  intros H.
  assert (L : List.length (addAll true data entries)
              = Nat.min 5 (List.length data + List.length entries)).
  { unfold addAll. revert data H. induction entries as [|e rest IH]; intros data H.
    - cbn [fold_left List.length]. lia.
    - cbn [fold_left]. rewrite IH; rewrite addNewTransmissionEntry_length;
        cbn [List.length]; destruct (Nat.leb_spec 5 (List.length data)); lia. }
  split_conj.
  - exact L.
  - unfold enforceMaxEntries. rewrite L.
    destruct (Nat.ltb_spec 5 (Nat.min 5 (List.length data + List.length entries)));
      [lia | reflexivity].
  - unfold addAll. clear. induction entries as [|e rest IH]; [reflexivity|].
    exact IH.
  - intros captured e C D. unfold addNewTransmissionEntry, enforceMaxEntries.
    simpl negb. cbv iota.
    destruct (Nat.leb_spec 5 (List.length captured)); [lia|]. simpl.
    split; [reflexivity|]. rewrite List.length_app, D. reflexivity.
Qed.

Lemma addNewTransmissionEntry_cap_witness :
  List.length (addAll true [sampleEntry "138 kV"; sampleEntry "69 kV"]
                 (List.map sampleEntry ["a"; "b"; "c"; "d"; "e"]))
  = 5.
Proof.
  apply (proj1 (addNewTransmissionEntry_cap [sampleEntry "138 kV"; sampleEntry "69 kV"]
                  (List.map sampleEntry ["a"; "b"; "c"; "d"; "e"])
                  ltac:(simpl; lia))).
Defined.

End PoiVoltageCap.


(* ===================================================================== *)
(** ** A number is never taken for a missing value *)
(* ===================================================================== *)

Section NumbersArePresent.

Import JsString SCORE_MAPPINGS ScoreCalculations.
Local Open Scope string_scope.

Ltac each_char c :=
  destruct c as [[] [] [] [] [] [] [] []].

Lemma allChars_app (p : ascii -> bool) (s t : string) :
  allChars p (s ++ t) = (allChars p s && allChars p t)%bool.
Proof.
  induction s as [|c s IH]; simpl; [reflexivity|].
  rewrite IH. now rewrite andb_assoc.
Qed.

Lemma allChars_weaken (p q : ascii -> bool) (s : string) :
  (forall c, p c = true -> q c = true) -> allChars p s = true -> allChars q s = true.
Proof.
  intros W. induction s as [|c s IH]; simpl; [reflexivity|].
  intros H. apply andb_true_iff in H as [H1 H2].
  now rewrite (W c H1), IH.
Qed.

Lemma allChars_take (p : ascii -> bool) (n : nat) (s : string) :
  allChars p s = true -> allChars p (take n s) = true.
Proof.
  revert s. induction n as [|n IH]; intros [|c s]; simpl; try reflexivity.
  intros H. apply andb_true_iff in H as [H1 H2]. now rewrite H1, IH.
Qed.

Lemma allChars_drop (p : ascii -> bool) (n : nat) (s : string) :
  allChars p s = true -> allChars p (drop n s) = true.
Proof.
  revert s. induction n as [|n IH]; intros [|c s]; simpl; try easy.
  intros H. apply andb_true_iff in H as [H1 H2]. now apply IH.
Qed.

Lemma allChars_repeat (p : ascii -> bool) (c : ascii) (n : nat) :
  p c = true -> allChars p (repeat c n) = true.
Proof. intros H. induction n as [|n IH]; simpl; [reflexivity|]. now rewrite H, IH. Qed.

Lemma isDigit_numericChar (c : ascii) : isDigit c = true -> numericChar c = true.
Proof. intros H. unfold numericChar. now rewrite H. Qed.

Lemma digitChar_isDigit (d : N) : (d < 10)%N -> isDigit (digitChar d) = true.
Proof.
  intros H.
  assert (D : (d = 0 \/ d = 1 \/ d = 2 \/ d = 3 \/ d = 4 \/ d = 5 \/ d = 6
               \/ d = 7 \/ d = 8 \/ d = 9)%N) by lia.
  repeat (destruct D as [-> | D]; [reflexivity|]). now subst.
Qed.

Lemma digitsFuel_digits (fuel : nat) (n : N) (acc : string) :
  allChars isDigit acc = true ->
  allChars isDigit (digitsFuel fuel n acc) = true
  /\ (fuel <> O -> digitsFuel fuel n acc <> "").
Proof.
  revert n acc. induction fuel as [|fuel IH]; intros n acc H; simpl.
  - split; [exact H | congruence].
  - assert (H' : allChars isDigit (String (digitChar (n mod 10)) acc) = true).
    { simpl. rewrite digitChar_isDigit, H; [reflexivity|].
      apply N.mod_lt. discriminate. }
    destruct (n / 10 =? 0)%N.
    + split; [exact H' | discriminate].
    + destruct (IH (n / 10)%N _ H') as [A B]. split; [exact A|].
      intros _. destruct fuel; [discriminate|]. apply B. discriminate.
Qed.

Lemma digitsOfN_digitText (n : N) : digitText (digitsOfN n) = true.
Proof.
  unfold digitsOfN.
  destruct (digitsFuel_digits (S (N.to_nat (N.log2 n))) n "" eq_refl) as [A B].
  unfold digitText. destruct (digitsFuel _ n "") eqn:E; [|exact A].
  exfalso. apply B; [discriminate | reflexivity].
Qed.

Lemma digitText_cases (s : string) :
  digitText s = true ->
  exists c r, s = String c r /\ isDigit c = true /\ allChars isDigit r = true.
Proof.
  destruct s as [|c r]; [discriminate|]. unfold digitText. simpl.
  intros H. apply andb_true_iff in H as [H1 H2]. now exists c, r.
Qed.

(** The text of the digits, laid out by Number::toString, is a numeral that
    starts with a digit. *)
Lemma formatDigits_decimalText (digits : string) (k n : Z) :
  digitText digits = true -> decimalText (formatDigits digits k n) = true.
Proof.
  intros H. destruct (digitText_cases digits H) as (c & r & -> & C & R).
  pose proof (allChars_weaken _ _ r isDigit_numericChar R) as R'.
  unfold formatDigits.
  destruct ((k <=? n) && (n <=? 21))%Z.
  { simpl. rewrite C, allChars_app, R', allChars_repeat; reflexivity. }
  destruct ((0 <? n) && (n <=? 21))%Z eqn:E2.
  { apply andb_true_iff in E2 as [E2 _]. apply Z.ltb_lt in E2.
    destruct (Z.to_nat n) as [|m] eqn:M; [lia|].
    simpl. rewrite C, !allChars_app. simpl.
    rewrite (allChars_take _ m r R'), (allChars_drop _ m r R'). reflexivity. }
  destruct ((-6 <? n) && (n <=? 0))%Z.
  { simpl. rewrite !allChars_app. simpl.
    rewrite (allChars_repeat numericChar "0" _ eq_refl).
    rewrite (isDigit_numericChar c C), R'. reflexivity. }
  pose proof (digitsOfN_digitText (Z.to_N (Z.abs (n - 1)))) as D.
  destruct (digitText_cases _ D) as (c' & r' & -> & C' & R2).
  pose proof (allChars_weaken _ _ r' isDigit_numericChar R2) as R2'.
  pose proof (isDigit_numericChar c' C') as C2.
  cbv zeta. destruct (k =? 1)%Z.
  - simpl. rewrite C, !allChars_app, R'. simpl.
    destruct (n - 1 <? 0)%Z; simpl; rewrite C2, R2'; reflexivity.
  - simpl. rewrite C, !allChars_app. simpl. rewrite R', C2, R2'.
    destruct (n - 1 <? 0)%Z; reflexivity.
Qed.

(** The text of a finite number is a numeral that starts with a digit,
    after a minus sign if the number is negative. *)
Lemma toString_finite (x : number) :
  isFinite x = true ->
  exists s, decimalText s = true /\ (toString x = s \/ toString x = String "-" s).
Proof.
  unfold isFinite, toString. destruct (Prim2SF x) as [sg|sg| |sg m e]; try discriminate.
  - intros _. exists "0". split; [reflexivity | now left].
  - intros _. destruct (ratioOf m e) as [num den].
    destruct (shortest 17 _ num den _ 1) as [[s k] n'].
    exists (formatDigits (digitsOfN (Z.to_N s)) k n'). split.
    + apply formatDigits_decimalText, digitsOfN_digitText.
    + destruct sg; [right | left]; reflexivity.
Qed.

Lemma decimalText_cases (s : string) :
  decimalText s = true ->
  exists c r, s = String c r /\ isDigit c = true /\ allChars numericChar r = true.
Proof.
  destruct s as [|c r]; [discriminate|]. simpl.
  intros H. apply andb_true_iff in H as [H1 H2]. now exists c, r.
Qed.

Lemma trimEnd_head (c : ascii) (s : string) :
  isWhiteSpace c = false -> exists t, trimEnd (String c s) = String c t.
Proof.
  intros H. simpl. rewrite H. destruct (trimEnd s); eauto.
Qed.

Lemma isDigit_not_space (c : ascii) : isDigit c = true -> isWhiteSpace c = false.
Proof. each_char c; try discriminate; reflexivity. Qed.

Lemma readSign_digit (c : ascii) (s : string) :
  isDigit c = true -> readSign (String c s) = (false, String c s).
Proof. each_char c; try discriminate; reflexivity. Qed.

Lemma startsWith_Infinity_digit (c : ascii) (s : string) :
  isDigit c = true -> startsWith (String c s) "Infinity" = false.
Proof. each_char c; try discriminate; reflexivity. Qed.

Lemma isSentinel_digit (c : ascii) (t : string) :
  isDigit c = true -> isSentinel (String c t) = false.
Proof. each_char c; try discriminate; reflexivity. Qed.

Lemma numericChar_not_x (c : ascii) :
  numericChar c = true -> Ascii.eqb "x" c = false /\ Ascii.eqb "X" c = false.
Proof. each_char c; try discriminate; split; reflexivity. Qed.

Lemma startsWith_hex_decimalText (c : ascii) (r : string) :
  isDigit c = true -> allChars numericChar r = true ->
  (startsWith (String c r) "0x" || startsWith (String c r) "0X")%bool = false.
Proof.
  intros C R. cbn [startsWith]. destruct (Ascii.eqb "0" c); [|reflexivity].
  destruct r as [|d r]; [reflexivity|].
  simpl in R. apply andb_true_iff in R as [R _].
  destruct (numericChar_not_x d R) as [-> ->]. reflexivity.
Qed.

(** The text of a decimal numeral, also after a minus sign, is no sentinel
    after trimming. *)
Lemma isSentinel_decimalText (s : string) :
  decimalText s = true ->
  isSentinel (trim s) = false /\ isSentinel (trim (String "-" s)) = false.
Proof.
  intros H. destruct (decimalText_cases s H) as (c & r & -> & C & R).
  pose proof (isDigit_not_space c C) as W. split.
  - unfold trim. cbn [trimStart]. rewrite W.
    destruct (trimEnd_head c r W) as [t ->]. now apply isSentinel_digit.
  - unfold trim.
    change (trimStart (String "-" (String c r))) with (String "-" (String c r)).
    destruct (trimEnd_head "-" (String c r) eq_refl) as [t ->]. reflexivity.
Qed.

(** Reading digits after one digit has been read gives a positive count. *)
Lemma readDigits_count (s : string) (acc : N) (cnt : nat) :
  exists v n r, readDigits s acc (S cnt) = (v, S n, r).
Proof.
  revert acc cnt. induction s as [|c s IH]; intros acc cnt; simpl; eauto.
  destruct (isDigit c); eauto.
Qed.

Lemma parseFloat_digits (neg : bool) (c : ascii) (r : string) :
  isDigit c = true ->
  isNaN (let '(ip, icnt, rest) := readDigits (String c r) 0%N O in
         let '(m, fcnt, rest') :=
           match rest with
           | String "." r => let '(m, fcnt, r') := readDigits r ip O in
                             match icnt, fcnt with
                             | O, O => (ip, O, rest)
                             | _, _ => (m, fcnt, r')
                             end
           | _ => (ip, O, rest)
           end in
         match icnt, fcnt with
         | O, O => nan
         | _, _ => SF2Prim (roundDecimal neg m (readExponent rest' - Z.of_nat fcnt))
         end) = false.
Proof.
  intros C. cbn [readDigits]. rewrite C.
  destruct (readDigits_count r (10 * 0 + digitVal c)%N O) as (v & n & rest & ->).
  match goal with
  | |- isNaN (match ?e with pair _ _ => _ end) = false =>
      destruct e as [[m fcnt] rest']
  end.
  apply SF2Prim_not_nan, roundDecimal_not_nan.
Qed.

(** [parseFloat] reads a number from a decimal numeral, also after a minus
    sign. *)
Lemma parseFloatString_decimalText (s : string) :
  decimalText s = true ->
  isNaN (parseFloatString s) = false
  /\ isNaN (parseFloatString (String "-" s)) = false.
Proof.
  intros H. destruct (decimalText_cases s H) as (c & r & -> & C & R).
  pose proof (isDigit_not_space c C) as W. split.
  - unfold parseFloatString. cbn [trimStart]. rewrite W, (readSign_digit c r C).
    cbv beta iota.
    rewrite (startsWith_Infinity_digit c r C). now apply parseFloat_digits.
  - unfold parseFloatString.
    change (readSign (trimStart (String "-" (String c r)))) with (true, String c r).
    cbv beta iota.
    rewrite (startsWith_Infinity_digit c r C). now apply parseFloat_digits.
Qed.

Lemma parseInt_digits (neg : bool) (c : ascii) (r : string) :
  isDigit c = true -> allChars numericChar r = true ->
  isNaN (let '(v, cnt) :=
           if (startsWith (String c r) "0x" || startsWith (String c r) "0X")%bool
           then readHex (drop 2 (String c r)) 0%N O
           else let '(v, cnt, _) := readDigits (String c r) 0%N O in (v, cnt) in
         match cnt with
         | O => nan
         | S _ => SF2Prim (roundDecimal neg v 0)
         end) = false.
Proof.
  intros C R. rewrite (startsWith_hex_decimalText c r C R).
  cbn [readDigits]. rewrite C.
  destruct (readDigits_count r (10 * 0 + digitVal c)%N O) as (v & n & rest & ->).
  apply SF2Prim_not_nan, roundDecimal_not_nan.
Qed.

(** [parseInt] reads a number from a decimal numeral, also after a minus
    sign. *)
Lemma parseIntString_decimalText (s : string) :
  decimalText s = true ->
  isNaN (parseIntString s) = false
  /\ isNaN (parseIntString (String "-" s)) = false.
Proof.
  intros H. destruct (decimalText_cases s H) as (c & r & -> & C & R).
  pose proof (isDigit_not_space c C) as W. split.
  - unfold parseIntString. cbn [trimStart]. rewrite W, (readSign_digit c r C).
    cbv beta iota. now apply parseInt_digits.
  - unfold parseIntString.
    change (readSign (trimStart (String "-" (String c r)))) with (true, String c r).
    cbv beta iota. now apply parseInt_digits.
Qed.

Lemma isNaN_Prim2SF_eq (x : number) :
  isNaN x = match Prim2SF x with S754_nan => true | _ => false end.
Proof.
  unfold isNaN, is_nan. rewrite FloatAxioms.eqb_spec.
  destruct (Prim2SF x) as [sg|sg| |sg m e]; try destruct sg; try reflexivity;
    unfold SFeqb, SFcompare; rewrite Z.compare_refl, Pos.compare_cont_refl;
    reflexivity.
Qed.

Lemma isZero_finite (x : number) : isZero (JNum x) = true -> isFinite x = true.
Proof.
  unfold isZero, isFinite. rewrite FloatAxioms.eqb_spec.
  destruct (Prim2SF x) as [sg|sg| |sg m e]; try destruct sg; vm_compute; congruence.
Qed.

(** The text of a number is no sentinel; [parseFloat] reads a number from
    it unless the number is NaN, and [parseInt] unless it is NaN or
    infinite. *)
Lemma number_text (x : number) :
  isSentinel (trim (toString x)) = false
  /\ isNaN (parseFloatString (toString x)) = isNaN x
  /\ isNaN (parseIntString (toString x)) = negb (isFinite x).
Proof.
  rewrite (isNaN_Prim2SF_eq x).
  destruct (isFinite x) eqn:F.
  - destruct (toString_finite x F) as (s & D & [-> | ->]);
      destruct (isSentinel_decimalText s D) as [S1 S2];
      destruct (parseFloatString_decimalText s D) as [P1 P2];
      destruct (parseIntString_decimalText s D) as [I1 I2];
      unfold isFinite in F; destruct (Prim2SF x); try discriminate F; auto.
  - unfold isFinite in F. unfold toString.
    destruct (Prim2SF x) as [sg|sg| |sg m e]; try discriminate F;
      try destruct sg; split_conj; reflexivity.
Qed.

(** X19: a number is never taken for a missing value.  On a number, [cod],
    [environmental] and [redevMarket], which read it with [parseInt],
    return null exactly for NaN and the infinities; [capacityFactor],
    [infra], [ix] and [transactability], which read it with [parseFloat],
    return null exactly for NaN; and [getScore] uses every number but
    NaN. *)
Theorem numbers_are_scored (x : number) :
  passesMissingTests (JNum x) = true
  /\ (cod (JNum x) = JNull <-> isFinite x = false)
  /\ (environmental (JNum x) = JNull <-> isFinite x = false)
  /\ (redevMarket (JNum x) = JNull <-> isFinite x = false)
  /\ (capacityFactor (JNum x) = JNull <-> isNaN x = true)
  /\ (infra (JNum x) = JNull <-> isNaN x = true)
  /\ (ix (JNum x) = JNull <-> isNaN x = true)
  /\ (transactability (JNum x) = JNull <-> isNaN x = true)
  /\ usableSource (JNum x) = negb (isNaN x).
Proof.
  destruct (number_text x) as (S & P & I).
  assert (Z1 : isZero (JNum x) = true -> isNaN x = false).
  { intros Z. apply isZero_finite in Z. rewrite isNaN_Prim2SF_eq.
    unfold isFinite in Z. now destruct (Prim2SF x). }
  assert (IR : integerRating (JNum x) = JNull <-> isFinite x = false).
  { unfold integerRating. change (isAbsent (JNum x)) with false. cbv iota.
    change (ToString (JNum x)) with (toString x). unfold parseInt.
    change (ToString (JNum x)) with (toString x). rewrite S.
    destruct (isZero (JNum x)) eqn:Z.
    - rewrite (isZero_finite x Z). split; discriminate.
    - rewrite I. destruct (isFinite x); simpl; split; congruence. }
  assert (CR : continuousRating (JNum x) = JNull <-> isNaN x = true).
  { unfold continuousRating. change (isAbsent (JNum x)) with false. cbv iota.
    change (ToString (JNum x)) with (toString x). unfold parseFloat.
    change (ToString (JNum x)) with (toString x). rewrite S.
    destruct (isZero (JNum x)) eqn:Z.
    - rewrite (Z1 eq_refl). split; discriminate.
    - rewrite P. destruct (isNaN x); [easy|].
      repeat match goal with |- context [if ?b then _ else _] => destruct b end;
        split; discriminate. }
  split_conj.
  - unfold passesMissingTests. change (isAbsent (JNum x)) with false.
    change (ToString (JNum x)) with (toString x). now rewrite S.
  - unfold cod. change (isAbsent (JNum x)) with false. cbv iota.
    unfold parseInt. change (ToString (JNum x)) with (toString x). rewrite S, I.
    destruct (isFinite x); simpl; [|easy].
    repeat match goal with |- context [if ?b then _ else _] => destruct b end;
      split; discriminate.
  - exact IR.
  - exact IR.
  - unfold capacityFactor. change (isAbsent (JNum x)) with false. cbv iota.
    unfold parseFloat. change (ToString (JNum x)) with (toString x). rewrite S, P.
    destruct (isNaN x); [easy|].
    repeat match goal with |- context [if ?b then _ else _] => destruct b end;
      split; discriminate.
  - exact CR.
  - exact CR.
  - unfold transactability. change (isAbsent (JNum x)) with false. cbv iota.
    unfold parseFloat. change (ToString (JNum x)) with (toString x). rewrite P.
    destruct (isNaN x); simpl; split; congruence.
  - unfold usableSource, parseFloat. change (ToString (JNum x)) with (toString x).
    now rewrite P.
Qed.

End NumbersArePresent.

(* ===================================================================== *)
(** ** The policy of the mappings on missing and invalid values *)
(* ===================================================================== *)

Section MissingValuesPolicy.

Import JsString SCORE_MAPPINGS.
Local Open Scope float_scope.

Lemma not_finite_cases (x : number) :
  isFinite x = false -> isInfinite x = false -> isNaN x = true.
Proof.
  rewrite isNaN_Prim2SF_eq. unfold isFinite, isInfinite.
  destruct (Prim2SF x); congruence.
Qed.

Lemma classifyNumeric_cases (parse : JsValue -> number) (v : JsValue) :
  classifyNumeric parse v = MISSING -> isInfinite (parse v) = false ->
  classify v = MISSING \/ isNaN (parse v) = true.
Proof.
  intros C I. destruct v as [| | b | x | s]; try (now left).
  unfold classifyNumeric in C.
  destruct (classify (JStr s)); [now left|]. right.
  destruct (isFinite (parse (JStr s))) eqn:F; [discriminate C|].
  now apply not_finite_cases.
Qed.

Lemma integer_mappings_unread (v : JsValue) :
  isNaN (parseInt v) = true ->
  cod v = JNull /\ (isZero v = false -> environmental v = JNull /\ redevMarket v = JNull).
Proof.
  intros N. unfold cod, environmental, redevMarket, integerRating. cbv zeta.
  rewrite N. split.
  - destruct (isAbsent v), (isSentinel (trim (ToString v))); reflexivity.
  - intros ->. destruct (isAbsent v), (isSentinel (trim (ToString v))); split; reflexivity.
Qed.

Lemma float_mappings_unread (v : JsValue) :
  isNaN (parseFloat v) = true ->
  capacityFactor v = JNull /\ (isZero v = false -> infra v = JNull /\ ix v = JNull).
Proof.
  intros N. unfold capacityFactor, infra, ix, continuousRating. cbv zeta.
  rewrite N. split.
  - destruct (isAbsent v), (isSentinel (trim (ToString v))); reflexivity.
  - intros ->. destruct (isAbsent v), (isSentinel (trim (ToString v))); split; reflexivity.
Qed.

Lemma isZero_reads (v : JsValue) :
  isZero v = true -> isNaN (parseInt v) = false /\ isNaN (parseFloat v) = false.
Proof. intros Z. destruct (isZero_parse v Z) as [-> ->]. split; reflexivity. Qed.

Lemma numeric_missing_parseInt (v : JsValue) :
  classifyNumeric parseInt v = MISSING -> isInfinite (parseInt v) = false ->
  cod v = JNull /\ environmental v = JNull /\ redevMarket v = JNull.
Proof.
  intros C I. destruct (classifyNumeric_cases parseInt v C I) as [M | N].
  - destruct (mappings_missing v M) as (H1 & _ & _ & _ & H5 & H6 & _). auto.
  - destruct (integer_mappings_unread v N) as [H1 H2]. split; [exact H1|].
    apply H2. destruct (isZero v) eqn:Z; [|reflexivity].
    destruct (isZero_reads v Z) as [R _]. congruence.
Qed.

Lemma numeric_missing_parseFloat (v : JsValue) :
  classifyNumeric parseFloat v = MISSING -> isInfinite (parseFloat v) = false ->
  capacityFactor v = JNull /\ infra v = JNull /\ ix v = JNull.
Proof.
  intros C I. destruct (classifyNumeric_cases parseFloat v C I) as [M | N].
  - destruct (mappings_missing v M) as (_ & H2 & _ & _ & _ & _ & H7 & H8). auto.
  - destruct (float_mappings_unread v N) as [H1 H2]. split; [exact H1|].
    apply H2. destruct (isZero v) eqn:Z; [|reflexivity].
    destruct (isZero_reads v Z) as [_ R]. congruence.
Qed.

(** On a present value without the key phrases, [thermalOptimization]
    returns what [parseInt] reads when that lies between 0 and 2, and 0
    otherwise. *)
Lemma thermalOptimization_reads (v : JsValue) :
  keywordText v = false -> classify v = PRESENT ->
  thermalOptimization v
  = if (negb (isNaN (parseInt v)) && (0 <=? parseInt v)
        && (parseInt v <=? 2))%bool
    then JNum (parseInt v) else JNum 0.
Proof.
  intros K C. unfold thermalOptimization. cbv zeta.
  assert (T : match v with
              | JStr s =>
                  if ToBoolean v
                  then if includes (toLowerCase s) "readily apparent"
                       then Some (JNum 2)
                       else if includes (toLowerCase s) "no identifiable"
                            then Some (JNum 1) else None
                  else None
              | _ => None
              end = None).
  { destruct v as [| | b | x | s]; try reflexivity. simpl in K.
    apply orb_false_iff in K. destruct K as [-> ->].
    destruct (ToBoolean (JStr s)); reflexivity. }
  rewrite T. destruct (isZero v) eqn:Z.
  { destruct (isZero_parse v Z) as [_ ->]. reflexivity. }
  assert (A : isAbsent v = false).
  { destruct v as [| | b | x | [|c s]]; try discriminate C; reflexivity. }
  assert (S : isSentinel (trim (ToString v)) = false).
  { destruct v as [| | [] | x | s]; try discriminate C; try reflexivity.
    - exact (proj1 (number_text x)).
    - simpl in C. simpl ToString. destruct (isSentinel (trim s)); congruence. }
  rewrite A, S. reflexivity.
Qed.

Lemma thermalOptimization_present (v : JsValue) :
  keywordText v = false -> classify v = PRESENT ->
  ((0 <=? parseInt v) = true -> (parseInt v <=? 2) = true ->
     thermalOptimization v = JNum (parseInt v))
  /\ (isNaN (parseInt v) = true \/ (parseInt v <? 0) = true
      \/ (2 <? parseInt v) = true ->
      thermalOptimization v = JNum 0).
Proof.
  intros K C. rewrite (thermalOptimization_reads v K C).
  set (p := parseInt v). clearbody p. split.
  - intros L U. assert (N : isNaN p = false) by float_order.
    now rewrite N, L, U.
  - intros [N | [L | U]].
    + now rewrite N.
    + assert (F : (0 <=? p) = false) by float_order.
      rewrite F, andb_false_r. reflexivity.
    + assert (F : (p <=? 2) = false) by float_order.
      rewrite F, andb_false_r. reflexivity.
Qed.

(** C5, as the specification states it, fails. The numbers 2.9 and the
    texts ["1.5"] and ["2 units"] are present, hold none of the key phrases
    and are no explicit integer between 0 and 2, yet [thermalOptimization]
    scores them 2, 1 and 2, not 0: it reads them with [parseInt]. The text
    ["Infinity"] parses to no finite number and so classifies as MISSING for
    the mappings that need a number, yet [capacityFactor] scores it 1 and
    [infra] and [ix] score it 3. *)
Lemma truncated_rating_is_scored :
  (classify (JNum 2.9) = PRESENT /\ keywordText (JNum 2.9) = false
   /\ explicitInteger (JNum 2.9) = false
   /\ thermalOptimization (JNum 2.9) = JNum 2
   /\ thermalOptimization (JNum 2.9) <> JNum 0)
  /\ (classify (JStr "1.5") = PRESENT /\ keywordText (JStr "1.5") = false
      /\ explicitInteger (JStr "1.5") = false
      /\ thermalOptimization (JStr "1.5") = JNum 1)
  /\ (classify (JStr "2 units") = PRESENT /\ keywordText (JStr "2 units") = false
      /\ explicitInteger (JStr "2 units") = false
      /\ thermalOptimization (JStr "2 units") = JNum 2)
  /\ (classifyNumeric parseFloat (JStr "Infinity") = MISSING
      /\ capacityFactor (JStr "Infinity") = JNum 1
      /\ infra (JStr "Infinity") = JNum 3 /\ ix (JStr "Infinity") = JNum 3
      /\ capacityFactor (JStr "Infinity") <> JNull).
Proof.
  split_conj; try (vm_compute; reflexivity).
  - intros H.
    apply (f_equal (fun r => match r with JNum x => (1 <? x) | _ => false end)) in H.
    vm_compute in H. discriminate H.
  - vm_compute. discriminate.
Qed.

(** C5 (amended): every mapping but [thermalOptimization] maps a value
    classified MISSING (undefined, null, a trimmed text that is empty or a
    sentinel) to null, and the mappings that need a number also a string
    that does not read as a number; a string that reads as an infinite
    number is left out. [thermalOptimization] maps a value classified
    MISSING to 0; a text that contains "readily apparent" to 2, otherwise a
    text that contains "no identifiable" to 1 (in any letter case, the text
    being lower-cased first); the integers 0, 1 and 2 to themselves. Any
    other present value is read with [parseInt], which takes the integer at
    the start of its text: it is mapped to that integer when it lies
    between 0 and 2, and to 0 when nothing is read or the integer lies
    outside. *)
Theorem normalizers_missing_policy :
  (forall v : JsValue, classify v = MISSING ->
     cod v = JNull /\ capacityFactor v = JNull /\ market v = JNull
     /\ transactability v = JNull /\ environmental v = JNull
     /\ redevMarket v = JNull /\ infra v = JNull /\ ix v = JNull)
  /\ (forall v : JsValue, classify v = MISSING -> thermalOptimization v = JNum 0)
  /\ (forall v : JsValue, keywordText v = false -> classify v = PRESENT ->
        ((0 <=? parseInt v) = true -> (parseInt v <=? 2) = true ->
           thermalOptimization v = JNum (parseInt v))
        /\ (isNaN (parseInt v) = true \/ (parseInt v <? 0) = true
            \/ (2 <? parseInt v) = true ->
            thermalOptimization v = JNum 0))
  /\ (forall s : string,
        includes s "readily apparent" = true
        \/ includes (toLowerCase s) "readily apparent" = true ->
        thermalOptimization (JStr s) = JNum 2)
  /\ (forall s : string,
        includes (toLowerCase s) "readily apparent" = false ->
        includes s "no identifiable" = true
        \/ includes (toLowerCase s) "no identifiable" = true ->
        thermalOptimization (JStr s) = JNum 1)
  /\ (forall n : number, n = 0 \/ n = 1 \/ n = 2 ->
        thermalOptimization (JNum n) = JNum n
        /\ thermalOptimization (JStr (JsNumber.toString n)) = JNum n)
  /\ (forall v : JsValue,
        classifyNumeric parseInt v = MISSING -> isInfinite (parseInt v) = false ->
        cod v = JNull /\ environmental v = JNull /\ redevMarket v = JNull)
  /\ (forall v : JsValue,
        classifyNumeric parseFloat v = MISSING ->
        isInfinite (parseFloat v) = false ->
        capacityFactor v = JNull /\ infra v = JNull /\ ix v = JNull).
Proof.
  split_conj.
  - exact mappings_missing.
  - exact thermalOptimization_missing.
  - exact thermalOptimization_present.
  - intros s [H | H]; apply thermalOptimization_readily; [|exact H].
    exact (includes_toLowerCase s "readily apparent" H).
  - intros s H1 [H | H]; apply thermalOptimization_no_identifiable; auto.
    exact (includes_toLowerCase s "no identifiable" H).
  - intros n [-> | [-> | ->]]; split; vm_compute; reflexivity.
  - exact numeric_missing_parseInt.
  - exact numeric_missing_parseFloat.
Qed.

Lemma normalizers_missing_policy_witness :
  market (JStr " #N/A ") = JNull
  /\ thermalOptimization (JStr "#VALUE!") = JNum 0
  /\ thermalOptimization (JNum 7) = JNum 0
  /\ thermalOptimization (JStr "2 units") = JNum 2
  /\ thermalOptimization (JStr "Readily Apparent upside") = JNum 2
  /\ thermalOptimization (JStr "No identifiable upside") = JNum 1
  /\ thermalOptimization (JNum 2) = JNum 2
  /\ cod (JStr "unknown") = JNull
  /\ capacityFactor (JStr "n/a") = JNull.
Proof.
  split_conj.
  - apply (proj1 normalizers_missing_policy (JStr " #N/A ")). reflexivity.
  - apply (proj1 (proj2 normalizers_missing_policy)). reflexivity.
  - apply (proj2 (proj1 (proj2 (proj2 normalizers_missing_policy)) (JNum 7)
                    eq_refl eq_refl)).
    right. right. vm_compute. reflexivity.
  - exact (proj1 (proj1 (proj2 (proj2 normalizers_missing_policy)) (JStr "2 units")
                    eq_refl eq_refl) eq_refl eq_refl).
  - apply (proj1 (proj2 (proj2 (proj2 normalizers_missing_policy)))).
    right. vm_compute. reflexivity.
  - apply (proj1 (proj2 (proj2 (proj2 (proj2 normalizers_missing_policy)))));
      [|right]; vm_compute; reflexivity.
  - exact (proj1 (proj1 (proj2 (proj2 (proj2 (proj2 (proj2 normalizers_missing_policy)))))
                    2%float (or_intror (or_intror eq_refl)))).
  - apply (proj1 (proj2 (proj2 (proj2 (proj2 (proj2 (proj2 normalizers_missing_policy))))))
             (JStr "unknown")); vm_compute; reflexivity.
  - apply (proj2 (proj2 (proj2 (proj2 (proj2 (proj2 (proj2 normalizers_missing_policy))))))
             (JStr "n/a")); vm_compute; reflexivity.
Defined.

End MissingValuesPolicy.

(* ===================================================================== *)
(** ** Saving the POI voltage entries: delete, then insert *)
(* ===================================================================== *)

Section DeleteThenInsert.

Import Transmission.
Local Open Scope list_scope.

Lemma deleteByProject_app (projectId : string) (t u : Table) :
  deleteByProject projectId (t ++ u)
  = deleteByProject projectId t ++ deleteByProject projectId u.
Proof. apply List.filter_app. Qed.

Lemma deleteByProject_twice (projectId : string) (t : Table) :
  deleteByProject projectId (deleteByProject projectId t) = deleteByProject projectId t.
Proof.
  unfold deleteByProject. induction t as [|r t IH]; [reflexivity|]. simpl.
  destruct (negb (String.eqb (project_id r) projectId)) eqn:E; [|exact IH].
  simpl. now rewrite E, IH.
Qed.

Lemma deleteByProject_inserted (projectId : string) (entries : list Object) :
  deleteByProject projectId
    (List.map (fun e => {| project_id := projectId; entry := e |}) entries) = [].
Proof.
  unfold deleteByProject. induction entries as [|e l IH]; [reflexivity|].
  simpl. now rewrite String.eqb_refl.
Qed.

Lemma deleteByProject_insertEntries (projectId : string) (entries : list Object)
    (t : Table) :
  deleteByProject projectId (insertEntries projectId entries t)
  = deleteByProject projectId t.
Proof.
  unfold insertEntries. destruct entries as [|e l]; [reflexivity|].
  now rewrite deleteByProject_app, deleteByProject_inserted, List.app_nil_r.
Qed.

(** X20: the delete followed by the insertions is idempotent: saving the
    same entries of a project again leaves the table as the first save
    left it, whatever it held before (no row is duplicated). *)
Theorem delete_then_insert_idempotent (projectId : string)
    (entries : list Object) (t : Table) :
  let save := fun t => insertEntries projectId entries (deleteByProject projectId t) in
  save (save t) = save t.
Proof.
  cbv beta zeta. now rewrite deleteByProject_insertEntries, deleteByProject_twice.
Qed.

Lemma entriesOf_saved (projectId other : string) (entries : list Object) (t : Table) :
  entriesOf other (insertEntries projectId entries (deleteByProject projectId t))
  = if String.eqb other projectId then entries else entriesOf other t.
Proof.
  rewrite entriesOf_insertEntries. destruct (String.eqb_spec other projectId) as [->|N].
  - now rewrite entriesOf_deleteByProject_same, entriesOf_inserted_same.
  - rewrite entriesOf_deleteByProject_other, entriesOf_inserted_other by exact N.
    apply List.app_nil_r.
Qed.

(** X21: the saves of two different projects do not interfere: in either
    order, every project reads back the same entries, the two projects the
    entries saved for them and every other project the entries it had. *)
Theorem saves_of_projects_commute (p q : string) (es fs : list Object) (t : Table) :
  p <> q ->
  let save := fun id entries t => insertEntries id entries (deleteByProject id t) in
  forall r : string,
    entriesOf r (save q fs (save p es t)) = entriesOf r (save p es (save q fs t))
    /\ entriesOf r (save q fs (save p es t))
       = if String.eqb r p then es else if String.eqb r q then fs else entriesOf r t.
Proof.
  intros N save r. unfold save. cbv beta. rewrite !entriesOf_saved.
  destruct (String.eqb_spec r p) as [E1|Np], (String.eqb_spec r q) as [E2|Nq];
    split; try reflexivity; congruence.
Qed.

Lemma saves_of_projects_commute_witness :
  entriesOf "8"
    (insertEntries "7" [] (deleteByProject "7"
       (insertEntries "3" [ {[ "poi_voltage" := JStr "230 kV" ]} ]
          (deleteByProject "3"
             [ {| project_id := "7"; entry := {[ "poi_voltage" := JStr "69 kV" ]} |};
               {| project_id := "8"; entry := {[ "poi_voltage" := JStr "138 kV" ]} |} ]))))
  = [ {[ "poi_voltage" := JStr "138 kV" ]} ].
Proof.
  exact (proj2 (saves_of_projects_commute "3" "7"
                  [ {[ "poi_voltage" := JStr "230 kV" ]} ] []
                  [ {| project_id := "7"; entry := {[ "poi_voltage" := JStr "69 kV" ]} |};
                    {| project_id := "8"; entry := {[ "poi_voltage" := JStr "138 kV" ]} |} ]
                  ltac:(discriminate) "8")).
Defined.

End DeleteThenInsert.
